(** * Model selectors for per-word hidden Markov models

    A shallow embedding of [src/my_model_selectors.py]: the base class
    [ModelSelector] with its [base_model] wrapper, and the four strategies
    [SelectorConstant], [SelectorBIC], [SelectorDIC] and [SelectorCV].

    Python's control flow is kept as written: a method is a computation over
    the selector object [self] (its [X] and [lengths] attributes are
    reassigned by [SelectorCV]), it may raise, and it may print.  The
    trainer (hmmlearn's [GaussianHMM]) and the two numpy functions the
    selectors call are an interface, [HMMLib]; floats are IEEE binary64. *)

From Stdlib Require Import ZArith String List Bool Floats Lia.
Import ListNotations.

Local Open Scope Z_scope.

(** ** Data *)

(** One observation frame (a feature vector), a feature matrix (rows are
    frames), one observation sequence. *)
Definition frame : Type := list float.
Definition matrix : Type := list frame.
Definition sequence : Type := list frame.

(** A Python [dict] with string keys, in insertion order. *)
Definition dict (V : Type) : Type := list (string * V).

Fixpoint dict_get {V : Type} (d : dict V) (k : string) : option V :=
  match d with
  | [] => None
  | (k', v) :: d' => if String.eqb k k' then Some v else dict_get d' k
  end.

Definition dict_keys {V : Type} (d : dict V) : list string := map fst d.

(** [len(x)] *)
Definition len {A : Type} (l : list A) : Z := Z.of_nat (List.length l).

(** [range(a, b)] *)
Definition range (a b : Z) : list Z :=
  map (fun i => a + Z.of_nat i) (seq 0 (Z.to_nat (b - a))).

(** The exceptions that can arise in the module.  [TrainerError] stands for
    whatever hmmlearn raises from [fit] or [score]. *)
Inductive exn : Type :=
| KeyError
| IndexError
| NameError
| AttributeError
| ValueError
| NotImplementedError
| TrainerError.

Inductive result (A : Type) : Type :=
| Ok (a : A)
| Raise (e : exn).
Arguments Ok {A} a.
Arguments Raise {A} e.

(** What [base_model] prints when [verbose] is set. *)
Inductive msg : Type :=
| model_created (word : string) (num_states : Z)
| failure_on (word : string) (num_states : Z).

(** The attributes [__init__] sets. *)
Record ModelSelector : Type := mkSelector {
  words : dict (list sequence);
  hwords : dict (matrix * list Z);
  sequences : list sequence;
  X : matrix;
  lengths : list Z;
  this_word : string;
  n_constant : Z;
  min_n_components : Z;
  max_n_components : Z;
  random_state : Z;
  verbose : bool;
  all_word_Xlengths : dict (matrix * list Z)
}.

(** [self.X, self.lengths = d] *)
Definition assign_Xlengths (self : ModelSelector) (d : matrix * list Z) : ModelSelector :=
  mkSelector (words self) (hwords self) (sequences self) (fst d) (snd d)
    (this_word self) (n_constant self) (min_n_components self)
    (max_n_components self) (random_state self) (verbose self)
    (all_word_Xlengths self).

(** [d[k]] *)
Definition getitem {V : Type} (d : dict V) (k : string) : result V :=
  match dict_get d k with
  | Some v => Ok v
  | None => Raise KeyError
  end.

(** [ModelSelector.__init__], with the defaults as explicit arguments. *)
Definition ModelSelector_init
    (all_word_sequences : dict (list sequence))
    (all_word_Xlengths0 : dict (matrix * list Z))
    (this_word0 : string)
    (n_constant0 min_n_components0 max_n_components0 random_state0 : Z)
    (verbose0 : bool) : result ModelSelector :=
  match getitem all_word_sequences this_word0 with
  | Raise e => Raise e
  | Ok sequences0 =>
      match getitem all_word_Xlengths0 this_word0 with
      | Raise e => Raise e
      | Ok (X0, lengths0) =>
          Ok (mkSelector all_word_sequences all_word_Xlengths0 sequences0
                X0 lengths0 this_word0 n_constant0 min_n_components0
                max_n_components0 random_state0 verbose0 all_word_Xlengths0)
      end
  end.

(** ** Methods as computations

    A method body maps the selector object to its outcome (a value or a
    raised exception), the selector object afterwards, and the lines
    printed.  Attribute assignments made before an exception stay. *)
Definition M (A : Type) : Type :=
  ModelSelector -> result A * ModelSelector * list msg.

Definition ret {A : Type} (a : A) : M A :=
  fun self => (Ok a, self, []).

Definition raise {A : Type} (e : exn) : M A :=
  fun self => (Raise e, self, []).

Definition bind {A B : Type} (c : M A) (k : A -> M B) : M B :=
  fun self =>
    match c self with
    | (Ok a, self1, out1) =>
        match k a self1 with
        | (r, self2, out2) => (r, self2, out1 ++ out2)
        end
    | (Raise e, self1, out1) => (Raise e, self1, out1)
    end.

Notation "x <- c ;; k" := (bind c (fun x => k))
  (at level 61, c at next level, right associativity).
Notation "' pat <- c ;; k" := (bind c (fun x => match x with pat => k end))
  (at level 61, pat pattern, c at next level, right associativity).
Notation "c ;; k" := (bind c (fun _ => k))
  (at level 61, right associativity).

Definition get_self : M ModelSelector :=
  fun self => (Ok self, self, []).

Definition set_Xlengths (d : matrix * list Z) : M unit :=
  fun self => (Ok tt, assign_Xlengths self d, []).

Definition print (m : msg) : M unit :=
  fun self => (Ok tt, self, [m]).

Definition lift {A : Type} (r : result A) : M A :=
  fun self => (r, self, []).

(** [try: body except: handler] with a bare [except]. *)
Definition try_except {A : Type} (body handler : M A) : M A :=
  fun self =>
    match body self with
    | (Ok a, self1, out1) => (Ok a, self1, out1)
    | (Raise _, self1, out1) =>
        match handler self1 with
        | (r, self2, out2) => (r, self2, out1 ++ out2)
        end
    end.

(** [for x in xs: acc = body(x, acc)], the loop's variables carried in
    [acc]; an exception in the body leaves the loop. *)
Fixpoint for_each {A S : Type} (xs : list A) (body : A -> S -> M S) (acc : S) : M S :=
  match xs with
  | [] => ret acc
  | x :: xs' => acc' <- body x acc ;; for_each xs' body acc'
  end.

(** The value, the selector afterwards and the output of an outcome. *)
Definition value_of {A : Type} (o : result A * ModelSelector * list msg) : result A :=
  fst (fst o).
Definition self_of {A : Type} (o : result A * ModelSelector * list msg) : ModelSelector :=
  snd (fst o).
Definition output_of {A : Type} (o : result A * ModelSelector * list msg) : list msg :=
  snd o.

(** ** Floats *)

(** An [int] as a float, rounded to nearest even. *)
Definition float_of_Z (z : Z) : float :=
  SF2Prim (binary_normalize prec emax z 0 false).

(** [a < b] and [a > b] on floats: false when either side is NaN. *)
Definition float_lt (a b : float) : bool := PrimFloat.ltb a b.
Definition float_gt (a b : float) : bool := PrimFloat.ltb b a.

(** ** The libraries the module calls *)

(** hmmlearn and numpy as the module uses them.
    - [GaussianHMM_fit n seed X lengths] is
      [GaussianHMM(n_components=n, covariance_type="diag", n_iter=1000,
      random_state=seed, verbose=False).fit(X, lengths)]; [None] when it raises.
      With an integer seed the call is a function of its arguments.
    - [Model_score m X lengths] is [m.score(X, lengths)]; [None] when it raises.
    - [np_log] and [np_mean] are [np.log] on an [int] and [np.mean] on a list
      of floats. *)
Class HMMLib : Type := {
  Model : Type;
  GaussianHMM_fit : Z -> Z -> matrix -> list Z -> option Model;
  Model_score : Model -> matrix -> list Z -> option float;
  np_log : Z -> float;
  np_mean : list float -> float
}.

(** scikit-learn's [KFold(n_splits=k)] without shuffling: the constructor
    rejects [k <= 1] with a [ValueError]. *)
Definition KFold (n_splits : Z) : result Z :=
  if n_splits <=? 1 then Raise ValueError else Ok n_splits.

(** [fold_sizes = np.full(k, n // k); fold_sizes[:n % k] += 1] *)
Definition fold_sizes (k n : nat) : list nat :=
  repeat (n / k + 1)%nat (n mod k)%nat ++ repeat (n / k)%nat (k - n mod k)%nat.

(** The test index lists are consecutive blocks of [0 .. n-1]; the train
    index list of a fold holds the indices outside its test block, in
    increasing order. *)
Fixpoint kfold_from (current : nat) (sizes : list nat) (n : nat) : list (list nat * list nat) :=
  match sizes with
  | [] => []
  | size :: rest =>
      let test_idx := seq current size in
      let train_idx :=
        filter (fun i => negb (existsb (Nat.eqb i) test_idx)) (seq 0 n) in
      (train_idx, test_idx) :: kfold_from (current + size)%nat rest n
  end.

(** [KFold(n_splits=k).split(samples)] for [n = len(samples)]: a
    [ValueError] when there are more splits than samples. *)
Definition KFold_split (k : Z) (n : nat) : result (list (list nat * list nat)) :=
  if Z.of_nat n <? k then Raise ValueError
  else Ok (kfold_from 0 (fold_sizes (Z.to_nat k) n) n).

(** [[sequences[idx] for idx in split_index_list]] *)
Fixpoint take_sequences (split_index_list : list nat) (seqs : list sequence) : result (list sequence) :=
  match split_index_list with
  | [] => Ok []
  | idx :: rest =>
      match nth_error seqs idx with
      | None => Raise IndexError
      | Some s =>
          match take_sequences rest seqs with
          | Ok l => Ok (s :: l)
          | Raise e => Raise e
          end
      end
  end.

(** Modelled from the spec: [combine_sequences] of [asl_utils], which is not
    among the sources.  It builds the FlattenedView of the sequences at the
    given indices: the concatenated feature matrix and the per-sequence
    lengths, in index order. *)
Definition combine_sequences (split_index_list : list nat) (seqs : list sequence) : result (matrix * list Z) :=
  match take_sequences split_index_list seqs with
  | Ok sequences_fold => Ok (List.concat sequences_fold, map len sequences_fold)
  | Raise e => Raise e
  end.

(** ** The selectors *)

Section Selectors.

Context {L : HMMLib}.

(** [ModelSelector.base_model]: the fit wrapped in a bare [except], which
    turns every failure into [None]. *)
Definition base_model (num_states : Z) : M (option Model) :=
  self <- get_self ;;
  match GaussianHMM_fit num_states (random_state self) (X self) (lengths self) with
  | Some hmm_model =>
      (if verbose self then print (model_created (this_word self) num_states)
       else ret tt) ;;
      ret (Some hmm_model)
  | None =>
      (if verbose self then print (failure_on (this_word self) num_states)
       else ret tt) ;;
      ret None
  end.

(** [hmm_model.score(X, lengths)], where [hmm_model] may be [None]. *)
Definition score_method (hmm_model : option Model) (X0 : matrix) (lengths0 : list Z) : M float :=
  match hmm_model with
  | None => raise AttributeError
  | Some m =>
      match Model_score m X0 lengths0 with
      | Some logL => ret logL
      | None => raise TrainerError
      end
  end.

(** [ModelSelector.select] *)
Definition ModelSelector_select : M (option Model) :=
  raise NotImplementedError.

(** [SelectorConstant.select] *)
Definition SelectorConstant_select : M (option Model) :=
  self <- get_self ;;
  let best_num_components := n_constant self in
  base_model best_num_components.

(** The name [n] in [SelectorBIC.select]: it is no local of the method, no
    attribute, no global of the module (whose globals are [math],
    [statistics], [warnings], [np], [GaussianHMM], [KFold],
    [combine_sequences] and the classes) and no builtin. *)
Definition name_n : M Z := raise NameError.

(** [self.X[0]] *)
Definition X_0 : M frame :=
  self <- get_self ;;
  match X self with
  | [] => raise IndexError
  | row :: _ => ret row
  end.

(** The body of the loop of [SelectorBIC.select]; the loop's variables are
    [(best_score, best_model)]. *)
Definition SelectorBIC_body (n_components : Z) (acc : float * option Model) : M (float * option Model) :=
  let '(best_score, best_model) := acc in
  hmm_model <- base_model n_components ;;
  self <- get_self ;;
  logL <- score_method hmm_model (X self) (lengths self) ;;
  let logN := np_log (len (X self)) in
  parameters <- (n1 <- name_n ;; n2 <- name_n ;; n3 <- name_n ;;
                 row <- X_0 ;;
                 ret (n1 * n2 + 2 * n3 * len row - 1)) ;;
  let score := (float_of_Z (-2) * logL + float_of_Z parameters * logN)%float in
  if float_lt score best_score
  then ret (score, hmm_model)
  else ret (best_score, best_model).

(** The [try] block of [SelectorBIC.select]. *)
Definition SelectorBIC_search : M (option Model) :=
  self <- get_self ;;
  ' (_, best_model) <-
    for_each (range (min_n_components self) (max_n_components self + 1))
      SelectorBIC_body (infinity, None) ;;
  ret best_model.

(** [SelectorBIC.select] *)
Definition SelectorBIC_select : M (option Model) :=
  try_except SelectorBIC_search
    (self <- get_self ;; base_model (n_constant self)).

(** The body of the inner loop of [SelectorDIC.select], which runs over the
    keys of [self.words]; the loop's variable is [scores]. *)
Definition SelectorDIC_word (hmm_model : option Model) (word : string) (scores : list float) : M (list float) :=
  self <- get_self ;;
  if negb (String.eqb word (this_word self)) then
    ' (word_X, word_lengths) <- lift (getitem (all_word_Xlengths self) word) ;;
    s <- score_method hmm_model word_X word_lengths ;;
    ret (scores ++ [s])
  else ret scores.

(** The body of the outer loop of [SelectorDIC.select]. *)
Definition SelectorDIC_body (list_of_words : list string) (n_components : Z)
    (acc : float * option Model) : M (float * option Model) :=
  let '(best_score, best_model) := acc in
  hmm_model <- base_model n_components ;;
  scores <- for_each list_of_words (SelectorDIC_word hmm_model) [] ;;
  self <- get_self ;;
  own <- score_method hmm_model (X self) (lengths self) ;;
  let score := (own - np_mean scores)%float in
  if float_gt score best_score
  then ret (score, hmm_model)
  else ret (best_score, best_model).

(** The [try] block of [SelectorDIC.select]. *)
Definition SelectorDIC_search : M (option Model) :=
  self <- get_self ;;
  let list_of_words := dict_keys (words self) in
  ' (_, best_model) <-
    for_each (range (min_n_components self) (max_n_components self + 1))
      (SelectorDIC_body list_of_words) (neg_infinity, None) ;;
  ret best_model.

(** [SelectorDIC.select] *)
Definition SelectorDIC_select : M (option Model) :=
  try_except SelectorDIC_search
    (self <- get_self ;; base_model (n_constant self)).

(** The body of the fold loop of [SelectorCV.select]; the loop's variables
    are [(logL_arr, hmm_model)].  The training view of the fold is assigned
    to [self.X, self.lengths], which [base_model] reads. *)
Definition SelectorCV_fold (n_components : Z) (fold : list nat * list nat)
    (acc : list float * option Model) : M (list float * option Model) :=
  let '(cv_train_idx, cv_test_idx) := fold in
  let '(logL_arr, _) := acc in
  self <- get_self ;;
  train <- lift (combine_sequences cv_train_idx (sequences self)) ;;
  set_Xlengths train ;;
  hmm_model <- base_model n_components ;;
  ' (X_test, test_lengths) <- lift (combine_sequences cv_test_idx (sequences self)) ;;
  logL <- score_method hmm_model X_test test_lengths ;;
  ret (logL_arr ++ [logL], hmm_model).

(** The folds of [self.sequences]:
    [KFold(n_splits=min(3, len(self.sequences))).split(self.sequences)]. *)
Definition SelectorCV_folds (seqs : list sequence) : result (list (list nat * list nat)) :=
  match KFold (Z.min 3 (len seqs)) with
  | Ok split_method => KFold_split split_method (List.length seqs)
  | Raise e => Raise e
  end.

(** The body of the outer loop of [SelectorCV.select]. *)
Definition SelectorCV_body (n_components : Z) (acc : float * option Model) : M (float * option Model) :=
  let '(best_score, best_model) := acc in
  self <- get_self ;;
  folds <- lift (SelectorCV_folds (sequences self)) ;;
  ' (logL_arr, hmm_model) <- for_each folds (SelectorCV_fold n_components) ([], None) ;;
  let avg_score := np_mean logL_arr in
  if float_gt avg_score best_score
  then ret (avg_score, hmm_model)
  else ret (best_score, best_model).

(** The [try] block of [SelectorCV.select]. *)
Definition SelectorCV_search : M (option Model) :=
  self <- get_self ;;
  ' (_, best_model) <-
    for_each (range (min_n_components self) (max_n_components self + 1))
      SelectorCV_body (neg_infinity, None) ;;
  ret best_model.

(** [SelectorCV.select] *)
Definition SelectorCV_select : M (option Model) :=
  try_except SelectorCV_search
    (self <- get_self ;; base_model (n_constant self)).

End Selectors.

(** The four strategies a caller can construct. *)
Inductive Strategy : Type :=
| Constant
| BIC
| DIC
| CV.

(** [selector.select()] by dynamic dispatch. *)
Definition select {L : HMMLib} (s : Strategy) : M (option Model) :=
  match s with
  | Constant => SelectorConstant_select
  | BIC => SelectorBIC_select
  | DIC => SelectorDIC_select
  | CV => SelectorCV_select
  end.

(** What [base_model] prints. *)
Definition base_model_prints {L : HMMLib} (num_states : Z) (self : ModelSelector) : list msg :=
  if verbose self then
    match GaussianHMM_fit num_states (random_state self) (X self) (lengths self) with
    | Some _ => [model_created (this_word self) num_states]
    | None => [failure_on (this_word self) num_states]
    end
  else [].

(** The exception the first iteration of [SelectorBIC] ends with. *)
Definition SelectorBIC_exn {L : HMMLib} (n_components : Z) (self : ModelSelector) : exn :=
  match GaussianHMM_fit n_components (random_state self) (X self) (lengths self) with
  | None => AttributeError
  | Some m =>
      match Model_score m (X self) (lengths self) with
      | None => TrainerError
      | Some _ => NameError
      end
  end.

(** A computation ends with an exception on [self]. *)
Definition fails {A : Type} (c : M A) (self : ModelSelector) : Prop :=
  exists e, value_of (c self) = Raise e.

(** A computation leaves the selector object as it found it. *)
Definition stable {A : Type} (c : M A) : Prop :=
  forall self, self_of (c self) = self.

(** Two selector objects differ at most in [X] and [lengths]. *)
Definition same_config (self self' : ModelSelector) : Prop :=
  self' = assign_Xlengths self (X self', lengths self').

(** A computation changes at most [X] and [lengths] of the selector object. *)
Definition config_stable {A : Type} (c : M A) : Prop :=
  forall self, same_config self (self_of (c self)).

(** ** A trainer to run the selectors on

    A fitted model here records its state count and the data it was fitted
    on.  A fit fails when there are fewer frames than states, and scoring
    fails on a view with fewer frames than the model has states. *)
Module Example.

Record toy_model : Type := mkToy {
  toy_states : Z;
  toy_X : matrix;
  toy_lengths : list Z
}.

Definition toy_fit (n seed : Z) (X0 : matrix) (lengths0 : list Z) : option toy_model :=
  if (1 <=? n) && (n <=? len X0) then Some (mkToy n X0 lengths0) else None.

Definition toy_score (m : toy_model) (X0 : matrix) (lengths0 : list Z) : option float :=
  if len X0 <? toy_states m then None
  else Some (float_of_Z (- (toy_states m * len X0))).

(** The mean as a left-to-right sum divided by the count; on the empty list
    it is [0/0], a NaN, as [np.mean([])] is. *)
Definition toy_mean (l : list float) : float :=
  (fold_left PrimFloat.add l 0 / float_of_Z (len l))%float.

Definition toy_log (z : Z) : float := float_of_Z (Z.log2 z).

Definition toy : HMMLib :=
  {| Model := toy_model;
     GaussianHMM_fit := toy_fit;
     Model_score := toy_score;
     np_log := toy_log;
     np_mean := toy_mean |}.

(** Sequences of two frames each, of feature dimension 2. *)
Definition s1 : sequence := [[1; 0]; [2; 0]]%float.
Definition s2 : sequence := [[3; 0]; [4; 0]]%float.
Definition s3 : sequence := [[5; 0]; [6; 0]]%float.
Definition short : sequence := [[7; 0]]%float.

(** The whole-word view of a list of sequences. *)
Definition flatten (seqs : list sequence) : matrix * list Z :=
  (List.concat seqs, map len seqs).

Definition corpus (ws : dict (list sequence)) : dict (matrix * list Z) :=
  map (fun kv => (fst kv, flatten (snd kv))) ws.

(** One word with three sequences. *)
Definition book3 : dict (list sequence) := [("BOOK"%string, [s1; s2; s3])].

(** One word with a single sequence. *)
Definition book1 : dict (list sequence) := [("BOOK"%string, [s1])].

(** One word whose first sequence has a single frame. *)
Definition book_short : dict (list sequence) := [("BOOK"%string, [short; s1; s2])].

(** Three words; the view of ["GO"] has a single frame. *)
Definition three_words : dict (list sequence) :=
  [("BOOK"%string, [s1; s2; s3]); ("GO"%string, [short]); ("EAT"%string, [s1; s3])].

(** [Selector(ws, corpus(ws), "BOOK", n_constant, min, max, 14, verbose)] *)
Definition construct (ws : dict (list sequence)) (n_constant0 min0 max0 : Z)
    (verbose0 : bool) : result ModelSelector :=
  ModelSelector_init ws (corpus ws) "BOOK" n_constant0 min0 max0 14 verbose0.

End Example.

(** ** The score of one candidate

    The part of a loop body that evaluates a candidate, before the
    comparison with the best score so far. *)

(** Lines 118-124 of [SelectorDIC.select]: the candidate's model and its
    score, the log-likelihood of the word's own data minus the mean
    log-likelihood of the other words. *)
Definition SelectorDIC_eval {L : HMMLib} (list_of_words : list string)
    (n_components : Z) : M (float * option Model) :=
  hmm_model <- base_model n_components ;;
  scores <- for_each list_of_words (SelectorDIC_word hmm_model) [] ;;
  self <- get_self ;;
  own <- score_method hmm_model (X self) (lengths self) ;;
  ret ((own - np_mean scores)%float, hmm_model).

(** Lines 147-159 of [SelectorCV.select]: the mean held-out log-likelihood
    of the candidate over the folds, and the model of the last fold. *)
Definition SelectorCV_eval {L : HMMLib} (n_components : Z) : M (float * option Model) :=
  self <- get_self ;;
  folds <- lift (SelectorCV_folds (sequences self)) ;;
  ' (logL_arr, hmm_model) <- for_each folds (SelectorCV_fold n_components) ([], None) ;;
  ret (np_mean logL_arr, hmm_model).

(** A computation prints nothing, and leaves [verbose] off, when [verbose]
    is off. *)
Definition quiet {A : Type} (c : M A) : Prop :=
  forall self, verbose self = false ->
    output_of (c self) = [] /\ verbose (self_of (c self)) = false.

(** The selector object with other dicts in [words], [hwords] and
    [all_word_Xlengths]: the same word, data view and configuration in
    another corpus. *)
Definition with_dicts (self : ModelSelector) (ws : dict (list sequence))
    (hw : dict (matrix * list Z)) : ModelSelector :=
  mkSelector ws hw (sequences self) (X self) (lengths self) (this_word self)
    (n_constant self) (min_n_components self) (max_n_components self)
    (random_state self) (verbose self) hw.

(** A computation reads none of the three dicts: in another corpus it
    returns and prints the same and does the same to the other attributes. *)
Definition dict_blind {A : Type} (c : M A) : Prop :=
  forall self ws hw,
    c (with_dicts self ws hw) =
      (value_of (c self), with_dicts (self_of (c self)) ws hw, output_of (c self)).

(** * Properties *)

(** ** Running the building blocks *)

Section Runs.

Context {L : HMMLib}.

Lemma base_model_run (num_states : Z) (self : ModelSelector) :
  base_model num_states self =
    (Ok (GaussianHMM_fit num_states (random_state self) (X self) (lengths self)),
     self, base_model_prints num_states self).
Proof.
  unfold base_model, base_model_prints, bind, get_self.
  destruct (GaussianHMM_fit num_states (random_state self) (X self) (lengths self));
    destruct (verbose self); reflexivity.
Qed.

Lemma fallback_run (self : ModelSelector) :
  (self0 <- get_self ;; base_model (n_constant self0)) self =
    (Ok (GaussianHMM_fit (n_constant self) (random_state self) (X self) (lengths self)),
     self, base_model_prints (n_constant self) self).
Proof.
  unfold bind at 1. unfold get_self. rewrite base_model_run. reflexivity.
Qed.

Lemma SelectorConstant_run (self : ModelSelector) :
  SelectorConstant_select self =
    (Ok (GaussianHMM_fit (n_constant self) (random_state self) (X self) (lengths self)),
     self, base_model_prints (n_constant self) self).
Proof. apply fallback_run. Qed.

(** A [try] whose handler is the constant-baseline fallback returns. *)
Lemma try_fallback_returns (body : M (option Model)) (self : ModelSelector) :
  exists v self' out,
    try_except body (self0 <- get_self ;; base_model (n_constant self0)) self
      = (Ok v, self', out).
Proof.
  unfold try_except.
  destruct (body self) as [[[v | e] self1] out1].
  - eauto.
  - rewrite fallback_run. eauto.
Qed.

(** When the body raises, the [try] is the fallback run where the body
    stopped. *)
Lemma try_fallback_raise (body : M (option Model)) (self self1 : ModelSelector)
    (e : exn) (out1 : list msg) :
  body self = (Raise e, self1, out1) ->
  try_except body (self0 <- get_self ;; base_model (n_constant self0)) self
    = (Ok (GaussianHMM_fit (n_constant self1) (random_state self1) (X self1) (lengths self1)),
       self1, out1 ++ base_model_prints (n_constant self1) self1).
Proof.
  intros Hb. unfold try_except. rewrite Hb, fallback_run. reflexivity.
Qed.

Lemma try_fallback_ok (body : M (option Model)) (self self1 : ModelSelector)
    (v : option Model) (out1 : list msg) :
  body self = (Ok v, self1, out1) ->
  try_except body (self0 <- get_self ;; base_model (n_constant self0)) self
    = (Ok v, self1, out1).
Proof. intros Hb. unfold try_except. rewrite Hb. reflexivity. Qed.

(** A loop whose first iteration raises stops there. *)
Lemma for_each_raise_first {A S : Type} (x : A) (xs : list A) (body : A -> S -> M S)
    (acc : S) (self self1 : ModelSelector) (e : exn) (out1 : list msg) :
  body x acc self = (Raise e, self1, out1) ->
  for_each (x :: xs) body acc self = (Raise e, self1, out1).
Proof. intros Hb. simpl. unfold bind. rewrite Hb. reflexivity. Qed.

Lemma range_cons (a b : Z) :
  a < b -> range a b = a :: range (a + 1) b.
Proof.
  intros Hab. unfold range.
  replace (Z.to_nat (b - a)) with (S (Z.to_nat (b - (a + 1)))) by lia.
  simpl. rewrite Z.add_0_r. f_equal.
  rewrite <- seq_shift, map_map.
  apply map_ext. intros i. lia.
Qed.

Lemma range_nil (a b : Z) :
  b <= a -> range a b = [].
Proof.
  intros Hab. unfold range.
  replace (Z.to_nat (b - a)) with 0%nat by lia. reflexivity.
Qed.

Lemma in_range (a b n : Z) :
  In n (range a b) <-> a <= n < b.
Proof.
  unfold range. rewrite in_map_iff. split.
  - intros [i [Hi Hin]]. apply in_seq in Hin. lia.
  - intros Hn. exists (Z.to_nat (n - a)). split; [lia|].
    apply in_seq. lia.
Qed.

Lemma SelectorBIC_body_raises (n_components : Z) (acc : float * option Model)
    (self : ModelSelector) :
  SelectorBIC_body n_components acc self =
    (Raise (SelectorBIC_exn n_components self), self,
     base_model_prints n_components self).
Proof.
  unfold SelectorBIC_body, SelectorBIC_exn. destruct acc as [best_score best_model].
  unfold bind at 1. rewrite base_model_run.
  unfold bind at 1. unfold get_self.
  unfold bind at 1. unfold score_method.
  destruct (GaussianHMM_fit n_components (random_state self) (X self) (lengths self)) as [m|];
    [destruct (Model_score m (X self) (lengths self))|];
    unfold raise, ret, bind, name_n; simpl; rewrite ?app_nil_r; reflexivity.
Qed.

Lemma SelectorBIC_search_raises (self : ModelSelector) :
  min_n_components self <= max_n_components self ->
  SelectorBIC_search self =
    (Raise (SelectorBIC_exn (min_n_components self) self), self,
     base_model_prints (min_n_components self) self).
Proof.
  intros Hr. unfold SelectorBIC_search.
  unfold bind at 1. unfold get_self.
  rewrite range_cons by lia.
  unfold bind at 1.
  rewrite (for_each_raise_first _ _ _ _ _ _ _ _ (SelectorBIC_body_raises _ _ _)).
  reflexivity.
Qed.

(** A key of a dict can be looked up. *)
Lemma getitem_key {V : Type} (d : dict V) (k : string) :
  In k (dict_keys d) -> exists v, getitem d k = Ok v.
Proof.
  unfold getitem, dict_keys.
  induction d as [|[k' v] d IH]; simpl; [intros []|].
  intros [Hk | Hin].
  - subst k'. rewrite String.eqb_refl. eauto.
  - destruct (String.eqb k k'); eauto.
Qed.

(** On any selector object, [select] returns. *)
Lemma select_returns (strategy : Strategy) (self : ModelSelector) :
  exists (v : option Model) (self' : ModelSelector) (out : list msg),
    select strategy self = (Ok v, self', out).
Proof.
  destruct strategy; simpl.
  - rewrite SelectorConstant_run. eauto.
  - apply try_fallback_returns.
  - apply try_fallback_returns.
  - apply try_fallback_returns.
Qed.

End Runs.

(** ** No exception leaves [select] *)

(** C1: for each of the four strategies and a word that is a key of both
    input dicts, the constructor returns a selector and [select()] on it
    returns a value, a model or [None]; it never ends with an exception,
    whatever the trainer and the scorer do. *)
Theorem select_never_raises {L : HMMLib} (strategy : Strategy)
    (all_word_sequences : dict (list sequence))
    (all_word_Xlengths0 : dict (matrix * list Z)) (this_word0 : string)
    (n_constant0 min0 max0 seed : Z) (verbose0 : bool) :
  In this_word0 (dict_keys all_word_sequences) ->
  In this_word0 (dict_keys all_word_Xlengths0) ->
  exists self,
    ModelSelector_init all_word_sequences all_word_Xlengths0 this_word0
      n_constant0 min0 max0 seed verbose0 = Ok self /\
    exists (v : option Model) (self' : ModelSelector) (out : list msg),
      select strategy self = (Ok v, self', out).
Proof.
  intros Hs Hx.
  destruct (getitem_key _ _ Hs) as [sq Hsq].
  destruct (getitem_key _ _ Hx) as [[X0 l0] Hxl].
  unfold ModelSelector_init. rewrite Hsq, Hxl.
  eexists. split; [reflexivity|].
  apply select_returns.
Qed.

Lemma select_never_raises_witness :
  exists self,
    Example.construct Example.book3 3 2 3 false = Ok self /\
    exists (v : option Example.toy_model) (self' : ModelSelector) (out : list msg),
      select (L := Example.toy) CV self = (Ok v, self', out).
Proof.
  apply (select_never_raises (L := Example.toy) CV Example.book3
           (Example.corpus Example.book3) "BOOK" 3 2 3 14 false);
    simpl; auto.
Defined.

(** ** The information-criterion selector *)

(** C2: on a word with two frames, a search range [2..4] and
    [n_constant = 3], the candidate with 2 states fits and scores, and it
    is the only candidate that fits; [SelectorBIC.select()] computes no
    score for it (the search stops with [NameError] at the parameter
    count) and returns [None], the failed fit of the fallback. *)
Theorem SelectorBIC_computes_no_score :
  exists self m logL,
    Example.construct Example.book1 3 2 4 false = Ok self /\
    @GaussianHMM_fit Example.toy 2 (random_state self) (X self) (lengths self) = Some m /\
    @Model_score Example.toy m (X self) (lengths self) = Some logL /\
    @GaussianHMM_fit Example.toy 3 (random_state self) (X self) (lengths self) = None /\
    @GaussianHMM_fit Example.toy 4 (random_state self) (X self) (lengths self) = None /\
    SelectorBIC_search (L := Example.toy) self = (Raise NameError, self, []) /\
    SelectorBIC_select (L := Example.toy) self = (Ok None, self, []).
Proof.
  do 3 eexists. repeat split; vm_compute; reflexivity.
Qed.

(** C3: with a non-empty search range, the first iteration of
    [SelectorBIC.select()] raises ([AttributeError] after a failed fit,
    the scorer's exception after a failed score, [NameError] otherwise),
    and [select()] returns what [base_model(n_constant)] returns, which is
    what [SelectorConstant.select()] returns; the selector object is left
    as it was.  With [verbose] off the two selectors also print the same
    (nothing); with it on, [SelectorBIC] first prints the line of its first
    candidate. *)
Theorem SelectorBIC_is_SelectorConstant {L : HMMLib} (self : ModelSelector) :
  min_n_components self <= max_n_components self ->
  SelectorBIC_search self =
    (Raise (SelectorBIC_exn (min_n_components self) self), self,
     base_model_prints (min_n_components self) self) /\
  value_of (SelectorBIC_select self) = value_of (base_model (n_constant self) self) /\
  value_of (SelectorBIC_select self) = value_of (SelectorConstant_select self) /\
  self_of (SelectorBIC_select self) = self /\
  self_of (SelectorConstant_select self) = self /\
  output_of (SelectorBIC_select self) =
    base_model_prints (min_n_components self) self ++
    output_of (SelectorConstant_select self) /\
  (verbose self = false -> SelectorBIC_select self = SelectorConstant_select self).
Proof.
  intros Hr.
  pose proof (SelectorBIC_search_raises self Hr) as Hs.
  split; [exact Hs|].
  unfold SelectorBIC_select.
  rewrite (try_fallback_raise _ _ _ _ _ Hs), SelectorConstant_run, base_model_run.
  repeat split.
  intros Hv. unfold base_model_prints. rewrite Hv. reflexivity.
Qed.

Lemma SelectorBIC_is_SelectorConstant_witness :
  exists self,
    Example.construct Example.book3 3 2 4 true = Ok self /\
    value_of (SelectorBIC_select (L := Example.toy) self) =
      value_of (SelectorConstant_select (L := Example.toy) self).
Proof.
  eexists. split; [reflexivity|].
  apply (SelectorBIC_is_SelectorConstant (L := Example.toy)).
  vm_compute. discriminate.
Defined.

(** ** Loops, exceptions and the selector object *)

Section Loops.

Context {L : HMMLib}.

Lemma bind_run {A B : Type} (c : M A) (k : A -> M B) (self self1 : ModelSelector)
    (a : A) (out1 : list msg) :
  c self = (Ok a, self1, out1) ->
  bind c k self =
    (value_of (k a self1), self_of (k a self1), out1 ++ output_of (k a self1)).
Proof.
  intros Hc. unfold bind. rewrite Hc.
  destruct (k a self1) as [[r s2] o2]. reflexivity.
Qed.

Lemma bind_fails_l {A B : Type} (c : M A) (k : A -> M B) (self : ModelSelector) :
  fails c self -> fails (bind c k) self.
Proof.
  intros [e He]. exists e. unfold bind.
  destruct (c self) as [[[a | e'] s1] o1]; unfold value_of in *; simpl in *.
  - discriminate.
  - congruence.
Qed.

Lemma bind_fails_r {A B : Type} (c : M A) (k : A -> M B) (self self1 : ModelSelector)
    (a : A) (out1 : list msg) :
  c self = (Ok a, self1, out1) -> fails (k a) self1 -> fails (bind c k) self.
Proof.
  intros Hc [e He]. exists e. rewrite (bind_run _ _ _ _ _ _ Hc). exact He.
Qed.

Lemma stable_ret {A : Type} (a : A) : stable (ret a).
Proof. intros s. reflexivity. Qed.

Lemma stable_raise {A : Type} (e : exn) : stable (@raise A e).
Proof. intros s. reflexivity. Qed.

Lemma stable_lift {A : Type} (r : result A) : stable (lift r).
Proof. intros s. reflexivity. Qed.

Lemma stable_get_self : stable get_self.
Proof. intros s. reflexivity. Qed.

Lemma stable_bind {A B : Type} (c : M A) (k : A -> M B) :
  stable c -> (forall a, stable (k a)) -> stable (bind c k).
Proof.
  intros Hc Hk s. unfold bind. specialize (Hc s).
  destruct (c s) as [[[a | e] s1] o1]; unfold self_of in *; simpl in *; subst s1.
  - specialize (Hk a s). destruct (k a s) as [[r s2] o2]. exact Hk.
  - reflexivity.
Qed.

Lemma stable_for_each {A S : Type} (xs : list A) (body : A -> S -> M S) :
  (forall x acc, stable (body x acc)) -> forall acc, stable (for_each xs body acc).
Proof.
  intros Hb. induction xs as [|x xs IH]; intros acc; simpl.
  - apply stable_ret.
  - apply stable_bind; auto.
Qed.

Lemma stable_base_model (num_states : Z) : stable (base_model num_states).
Proof. intros s. rewrite base_model_run. reflexivity. Qed.

Lemma stable_score_method (hmm_model : option Model) (X0 : matrix) (lengths0 : list Z) :
  stable (score_method hmm_model X0 lengths0).
Proof.
  intros s. unfold score_method.
  destruct hmm_model as [m|]; [destruct (Model_score m X0 lengths0)|]; reflexivity.
Qed.

(** A loop fails when the body fails at one of its elements, whatever the
    loop's variables hold there, on every selector object the loop can
    reach. *)
Lemma for_each_fails_in {A S : Type} (Inv : ModelSelector -> Prop) (n : A)
    (xs : list A) (body : A -> S -> M S) :
  (forall x acc s, Inv s -> Inv (self_of (body x acc s))) ->
  (forall acc s, Inv s -> fails (body n acc) s) ->
  In n xs ->
  forall acc s, Inv s -> fails (for_each xs body acc) s.
Proof.
  intros Hinv Hfail. induction xs as [|x xs IH]; intros Hin acc s Hs; [destruct Hin|].
  simpl. destruct (body x acc s) as [[[acc' | e] s1] o1] eqn:Hb.
  - destruct Hin as [Hx | Hin].
    + subst x. destruct (Hfail acc s Hs) as [e He].
      rewrite Hb in He. discriminate.
    + eapply bind_fails_r; [exact Hb|].
      apply IH; [exact Hin|].
      specialize (Hinv x acc s Hs). rewrite Hb in Hinv. exact Hinv.
  - apply bind_fails_l. exists e. rewrite Hb. reflexivity.
Qed.

(** A failing search ends in the fallback, run on the selector object the
    search left. *)
Lemma try_fallback_fails (body : M (option Model)) (self : ModelSelector) :
  fails body self ->
  value_of (try_except body (self0 <- get_self ;; base_model (n_constant self0)) self)
    = Ok (GaussianHMM_fit (n_constant (self_of (body self)))
            (random_state (self_of (body self)))
            (X (self_of (body self))) (lengths (self_of (body self)))) /\
  self_of (try_except body (self0 <- get_self ;; base_model (n_constant self0)) self)
    = self_of (body self).
Proof.
  intros [e He].
  destruct (body self) as [[r s1] o1] eqn:Hb.
  unfold value_of in He. simpl in He. subst r.
  rewrite (try_fallback_raise _ _ _ _ _ Hb). split; reflexivity.
Qed.

End Loops.

(** ** The discriminative selector *)

Section Discriminative.

Context {L : HMMLib}.

Lemma stable_SelectorDIC_word (hmm_model : option Model) (word : string)
    (scores : list float) :
  stable (SelectorDIC_word hmm_model word scores).
Proof.
  unfold SelectorDIC_word.
  apply stable_bind; [apply stable_get_self|]. intros self.
  destruct (negb (String.eqb word (this_word self))); [|apply stable_ret].
  apply stable_bind; [apply stable_lift|]. intros [word_X word_lengths].
  apply stable_bind; [apply stable_score_method|]. intros s. apply stable_ret.
Qed.

Lemma stable_SelectorDIC_body (list_of_words : list string) (n_components : Z)
    (acc : float * option Model) :
  stable (SelectorDIC_body list_of_words n_components acc).
Proof.
  unfold SelectorDIC_body. destruct acc as [best_score best_model].
  apply stable_bind; [apply stable_base_model|]. intros hmm_model.
  apply stable_bind.
  { apply stable_for_each. intros. apply stable_SelectorDIC_word. }
  intros scores.
  apply stable_bind; [apply stable_get_self|]. intros self.
  apply stable_bind; [apply stable_score_method|]. intros own.
  destruct (float_gt _ _); apply stable_ret.
Qed.

Lemma stable_SelectorDIC_search : stable SelectorDIC_search.
Proof.
  unfold SelectorDIC_search.
  apply stable_bind; [apply stable_get_self|]. intros self.
  apply stable_bind.
  { apply stable_for_each. intros. apply stable_SelectorDIC_body. }
  intros [best_score best_model]. apply stable_ret.
Qed.

Lemma SelectorDIC_word_fails (m : Model) (word : string) (word_X : matrix)
    (word_lengths : list Z) (scores : list float) (self : ModelSelector) :
  word <> this_word self ->
  dict_get (all_word_Xlengths self) word = Some (word_X, word_lengths) ->
  Model_score m word_X word_lengths = None ->
  fails (SelectorDIC_word (Some m) word scores) self.
Proof.
  intros Hw Hget Hsc. exists TrainerError.
  apply String.eqb_neq in Hw.
  unfold SelectorDIC_word, bind, get_self, lift, getitem, score_method.
  rewrite Hw, Hget, Hsc. reflexivity.
Qed.

Lemma SelectorDIC_body_fails (list_of_words : list string) (n_components : Z)
    (acc : float * option Model) (self : ModelSelector) (m : Model)
    (word : string) (word_X : matrix) (word_lengths : list Z) :
  In word list_of_words ->
  word <> this_word self ->
  GaussianHMM_fit n_components (random_state self) (X self) (lengths self) = Some m ->
  dict_get (all_word_Xlengths self) word = Some (word_X, word_lengths) ->
  Model_score m word_X word_lengths = None ->
  fails (SelectorDIC_body list_of_words n_components acc) self.
Proof.
  intros Hin Hw Hfit Hget Hsc.
  unfold SelectorDIC_body. destruct acc as [best_score best_model].
  eapply bind_fails_r; [apply base_model_run|].
  rewrite Hfit. apply bind_fails_l.
  apply (for_each_fails_in (fun s => s = self) word); auto.
  - intros x sc s Hs. subst s. apply stable_SelectorDIC_word.
  - intros sc s Hs. subst s. eapply SelectorDIC_word_fails; eauto.
Qed.

(** C6: when scoring a fitted candidate against one other word fails, the
    search of [SelectorDIC.select()] ends there with the exception: the
    word is not left out of a mean, no further candidate is tried, and
    [select()] returns what [base_model(n_constant)] returns on the word's
    data, like [SelectorConstant.select()]. *)
Theorem SelectorDIC_word_failure_ends_search (self : ModelSelector)
    (n_components : Z) (m : Model) (word : string) (word_X : matrix)
    (word_lengths : list Z) :
  min_n_components self <= n_components <= max_n_components self ->
  In word (dict_keys (words self)) ->
  word <> this_word self ->
  GaussianHMM_fit n_components (random_state self) (X self) (lengths self) = Some m ->
  dict_get (all_word_Xlengths self) word = Some (word_X, word_lengths) ->
  Model_score m word_X word_lengths = None ->
  fails SelectorDIC_search self /\
  value_of (SelectorDIC_select self) = value_of (base_model (n_constant self) self) /\
  value_of (SelectorDIC_select self) = value_of (SelectorConstant_select self) /\
  self_of (SelectorDIC_select self) = self.
Proof.
  intros Hn Hin Hw Hfit Hget Hsc.
  assert (Hf : fails SelectorDIC_search self).
  { unfold SelectorDIC_search.
    eapply bind_fails_r; [reflexivity|].
    apply bind_fails_l.
    apply (for_each_fails_in (fun s => s = self) n_components); auto.
    - intros x acc s Hs. subst s. apply stable_SelectorDIC_body.
    - intros acc s Hs. subst s. eapply SelectorDIC_body_fails; eauto.
    - apply in_range. lia. }
  split; [exact Hf|].
  destruct (try_fallback_fails _ _ Hf) as [Hv Hs].
  fold SelectorDIC_select in Hv, Hs.
  rewrite stable_SelectorDIC_search in Hv, Hs.
  rewrite Hv, Hs, base_model_run, SelectorConstant_run. repeat split.
Qed.

End Discriminative.

Lemma SelectorDIC_word_failure_ends_search_witness :
  exists self,
    Example.construct Example.three_words 1 2 3 true = Ok self /\
    fails (SelectorDIC_search (L := Example.toy)) self /\
    value_of (SelectorDIC_select (L := Example.toy) self) =
      value_of (base_model (L := Example.toy) (n_constant self) self) /\
    value_of (SelectorDIC_select (L := Example.toy) self) =
      value_of (SelectorConstant_select (L := Example.toy) self) /\
    self_of (SelectorDIC_select (L := Example.toy) self) = self.
Proof.
  eexists. split; [reflexivity|].
  eapply (SelectorDIC_word_failure_ends_search (L := Example.toy) _ 2 _ "GO").
  - vm_compute. split; discriminate.
  - simpl. auto.
  - discriminate.
  - reflexivity.
  - reflexivity.
  - reflexivity.
Defined.

(** C6, as stated, fails: the corpus has the words BOOK, GO and EAT, the
    range is [2..3] and [n_constant = 1].  The candidate with 2 states fits
    and scores on BOOK's own data and on EAT; scoring it against GO fails.
    The search ends there: [select()] returns the fallback model with one
    state, and the printed lines show that the candidate with 3 states was
    never fitted. *)
Lemma SelectorDIC_word_failure_counterexample :
  exists self m2 own other,
    Example.construct Example.three_words 1 2 3 true = Ok self /\
    @GaussianHMM_fit Example.toy 2 (random_state self) (X self) (lengths self) = Some m2 /\
    @Model_score Example.toy m2 (X self) (lengths self) = Some own /\
    @Model_score Example.toy m2 (Example.s1 ++ Example.s3) [2; 2] = Some other /\
    @Model_score Example.toy m2 Example.short [1] = None /\
    dict_get (all_word_Xlengths self) "GO" = Some (Example.short, [1]) /\
    dict_get (all_word_Xlengths self) "EAT" = Some (Example.s1 ++ Example.s3, [2; 2]) /\
    fails (SelectorDIC_search (L := Example.toy)) self /\
    SelectorDIC_select (L := Example.toy) self =
      (Ok (Some (Example.mkToy 1 (X self) (lengths self))), self,
       [model_created "BOOK" 2; model_created "BOOK" 1]).
Proof.
  do 4 eexists. repeat split; try (vm_compute; reflexivity).
  exists TrainerError. vm_compute. reflexivity.
Qed.

(** ** The discriminative selector on a corpus of one word *)

Section Alone.

Context {L : HMMLib}.

(** A comparison with a difference whose subtrahend is NaN is false. *)
Lemma float_gt_sub_nan (own best_score : float) :
  float_gt (own - nan)%float best_score = false.
Proof.
  unfold float_gt. rewrite ltb_spec, sub_spec.
  change (Prim2SF nan) with S754_nan.
  unfold SF64sub.
  destruct (Prim2SF own) as [s | s | | s m e]; simpl;
    destruct (Prim2SF best_score) as [s' | s' | | s' m' e']; reflexivity.
Qed.

(** Without other words the inner loop appends nothing. *)
Lemma SelectorDIC_words_alone (hmm_model : option Model) (self : ModelSelector)
    (list_of_words : list string) (scores : list float) :
  (forall word, In word list_of_words -> word = this_word self) ->
  for_each list_of_words (SelectorDIC_word hmm_model) scores self = (Ok scores, self, []).
Proof.
  induction list_of_words as [|w ws IH]; intros Hall; [reflexivity|].
  simpl. unfold bind at 1. unfold SelectorDIC_word at 1.
  unfold bind at 1. unfold get_self.
  rewrite (Hall w (or_introl eq_refl)), String.eqb_refl. simpl.
  rewrite IH; [reflexivity|].
  intros word Hin. apply Hall. right. exact Hin.
Qed.

(** One candidate that fits and scores its own data leaves the loop's
    variables as they were: its score is NaN. *)
Lemma SelectorDIC_body_alone (self : ModelSelector) (n_components : Z)
    (acc : float * option Model) (m : Model) (logL : float) :
  (forall word, In word (dict_keys (words self)) -> word = this_word self) ->
  np_mean [] = nan ->
  GaussianHMM_fit n_components (random_state self) (X self) (lengths self) = Some m ->
  Model_score m (X self) (lengths self) = Some logL ->
  SelectorDIC_body (dict_keys (words self)) n_components acc self =
    (Ok acc, self, base_model_prints n_components self).
Proof.
  intros Hall Hnan Hfit Hsc.
  unfold SelectorDIC_body. destruct acc as [best_score best_model].
  unfold bind at 1. rewrite base_model_run, Hfit.
  unfold bind at 1. rewrite SelectorDIC_words_alone by exact Hall.
  unfold bind at 1. unfold get_self.
  unfold bind at 1. unfold score_method. rewrite Hsc. unfold ret at 1.
  rewrite Hnan, float_gt_sub_nan. unfold ret. simpl.
  rewrite app_nil_r. reflexivity.
Qed.

Lemma SelectorDIC_loop_alone (self : ModelSelector) (candidates : list Z)
    (acc : float * option Model) :
  (forall word, In word (dict_keys (words self)) -> word = this_word self) ->
  np_mean [] = nan ->
  (forall n, In n candidates ->
     exists m logL,
       GaussianHMM_fit n (random_state self) (X self) (lengths self) = Some m /\
       Model_score m (X self) (lengths self) = Some logL) ->
  exists out,
    for_each candidates (SelectorDIC_body (dict_keys (words self))) acc self =
      (Ok acc, self, out).
Proof.
  intros Hall Hnan. induction candidates as [|n ns IH]; intros Hok.
  - exists []. reflexivity.
  - destruct (Hok n (or_introl eq_refl)) as [m [logL [Hfit Hsc]]].
    destruct IH as [out Hout].
    { intros n' Hin. apply Hok. right. exact Hin. }
    simpl. unfold bind.
    rewrite (SelectorDIC_body_alone self n acc m logL Hall Hnan Hfit Hsc), Hout.
    eauto.
Qed.

Lemma SelectorDIC_body_fails_alone (self : ModelSelector) (n_components : Z)
    (acc : float * option Model) :
  (forall word, In word (dict_keys (words self)) -> word = this_word self) ->
  (forall m, GaussianHMM_fit n_components (random_state self) (X self) (lengths self) = Some m ->
             Model_score m (X self) (lengths self) = None) ->
  fails (SelectorDIC_body (dict_keys (words self)) n_components acc) self.
Proof.
  intros Hall Hbad.
  unfold SelectorDIC_body. destruct acc as [best_score best_model].
  eapply bind_fails_r; [apply base_model_run|].
  eapply bind_fails_r; [apply SelectorDIC_words_alone; exact Hall|].
  eapply bind_fails_r; [reflexivity|].
  apply bind_fails_l. unfold score_method.
  destruct (GaussianHMM_fit n_components (random_state self) (X self) (lengths self)) as [m|].
  - rewrite (Hbad m eq_refl). exists TrainerError. reflexivity.
  - exists AttributeError. reflexivity.
Qed.

(** C10, amended: when [self.words] has no key but [this_word] (and
    [np.mean] of the empty list is NaN), every candidate that fits and
    scores its own data gets the score NaN, which is never greater than
    the best score so far.  So if every candidate of the range fits and
    scores, [SelectorDIC.select()] returns [None]; it returns what
    [base_model(n_constant)] returns when some candidate of the range fails
    to fit or to score the word's own data. *)
Theorem SelectorDIC_alone (self : ModelSelector) :
  (forall word, In word (dict_keys (words self)) -> word = this_word self) ->
  np_mean [] = nan ->
  ((forall n, min_n_components self <= n <= max_n_components self ->
      exists m logL,
        GaussianHMM_fit n (random_state self) (X self) (lengths self) = Some m /\
        Model_score m (X self) (lengths self) = Some logL) ->
   value_of (SelectorDIC_select self) = Ok None /\
   self_of (SelectorDIC_select self) = self) /\
  ((exists n, min_n_components self <= n <= max_n_components self /\
      forall m, GaussianHMM_fit n (random_state self) (X self) (lengths self) = Some m ->
                Model_score m (X self) (lengths self) = None) ->
   value_of (SelectorDIC_select self) = value_of (base_model (n_constant self) self) /\
   self_of (SelectorDIC_select self) = self).
Proof.
  intros Hall Hnan. split.
  - intros Hok.
    destruct (SelectorDIC_loop_alone self
                (range (min_n_components self) (max_n_components self + 1))
                (neg_infinity, None) Hall Hnan) as [out Hout].
    { intros n Hin. apply Hok. apply in_range in Hin. lia. }
    assert (Hs : SelectorDIC_search self = (Ok None, self, out)).
    { unfold SelectorDIC_search. unfold bind at 1. unfold get_self.
      unfold bind. rewrite Hout. simpl. rewrite app_nil_r. reflexivity. }
    unfold SelectorDIC_select. rewrite (try_fallback_ok _ _ _ _ _ Hs).
    split; reflexivity.
  - intros [n [Hn Hbad]].
    assert (Hf : fails SelectorDIC_search self).
    { unfold SelectorDIC_search.
      eapply bind_fails_r; [reflexivity|].
      apply bind_fails_l.
      apply (for_each_fails_in (fun s => s = self) n); auto.
      - intros x acc s Hs. subst s. apply stable_SelectorDIC_body.
      - intros acc s Hs. subst s. apply SelectorDIC_body_fails_alone; assumption.
      - apply in_range. lia. }
    destruct (try_fallback_fails _ _ Hf) as [Hv Hs].
    fold SelectorDIC_select in Hv, Hs.
    rewrite stable_SelectorDIC_search in Hv, Hs.
    rewrite Hv, Hs, base_model_run. split; reflexivity.
Qed.

End Alone.

Lemma SelectorDIC_alone_witness :
  exists self,
    Example.construct Example.book3 3 2 3 false = Ok self /\
    value_of (SelectorDIC_select (L := Example.toy) self) = Ok None /\
    self_of (SelectorDIC_select (L := Example.toy) self) = self.
Proof.
  eexists. split; [reflexivity|].
  refine (proj1 (SelectorDIC_alone (L := Example.toy) _ _ _) _).
  - simpl. intros word [Hw | []]. symmetry. exact Hw.
  - reflexivity.
  - intros n Hn. simpl in Hn.
    assert (Hc : n = 2 \/ n = 3) by lia.
    destruct Hc; subst n; do 2 eexists; split; reflexivity.
Defined.

(** C10, as stated, fails: the corpus holds the single word BOOK, the range
    is [2..3] and [n_constant = 3].  Both candidates fit, and
    [base_model(n_constant)] would return a model, yet [select()] returns
    [None]. *)
Lemma SelectorDIC_alone_counterexample :
  exists self m,
    Example.construct Example.book3 3 2 3 true = Ok self /\
    dict_keys (words self) = [this_word self] /\
    value_of (base_model (L := Example.toy) (n_constant self) self) = Ok (Some m) /\
    SelectorDIC_select (L := Example.toy) self =
      (Ok None, self, [model_created "BOOK" 2; model_created "BOOK" 3]).
Proof.
  do 2 eexists. repeat split; vm_compute; reflexivity.
Qed.

(** ** The folds of the cross-validated selector *)

Lemma list_sum_repeat (a m : nat) : list_sum (repeat a m) = (m * a)%nat.
Proof. induction m as [|m IH]; simpl; [reflexivity | rewrite IH; reflexivity]. Qed.

Lemma fold_sizes_length (k n : nat) :
  (0 < k)%nat -> List.length (fold_sizes k n) = k.
Proof.
  intros Hk. unfold fold_sizes. rewrite length_app, !repeat_length.
  pose proof (Nat.mod_upper_bound n k). lia.
Qed.

Lemma fold_sizes_sum (k n : nat) :
  (0 < k)%nat -> list_sum (fold_sizes k n) = n.
Proof.
  intros Hk. unfold fold_sizes. rewrite list_sum_app, !list_sum_repeat.
  assert (Hr : (n mod k < k)%nat) by (apply Nat.mod_upper_bound; lia).
  pose proof (Nat.div_mod_eq n k) as Hn.
  remember (n / k)%nat as q. remember (n mod k)%nat as r.
  replace ((k - r) * q)%nat with (k * q - r * q)%nat by nia.
  nia.
Qed.

Lemma kfold_from_length (sizes : list nat) (current n : nat) :
  List.length (kfold_from current sizes n) = List.length sizes.
Proof.
  revert current. induction sizes as [|size rest IH]; intros current; simpl;
    [reflexivity | rewrite IH; reflexivity].
Qed.

(** The test blocks, one after the other, are the indices from [current] on. *)
Lemma kfold_from_tests (sizes : list nat) (current n : nat) :
  List.concat (map snd (kfold_from current sizes n)) = seq current (list_sum sizes).
Proof.
  revert current. induction sizes as [|size rest IH]; intros current; simpl;
    [reflexivity|].
  rewrite IH, seq_app. reflexivity.
Qed.

(** Each training list is the complement of its test block. *)
Lemma kfold_from_train (sizes : list nat) (current n : nat) (train_idx test_idx : list nat) :
  In (train_idx, test_idx) (kfold_from current sizes n) ->
  train_idx = filter (fun i => negb (existsb (Nat.eqb i) test_idx)) (seq 0 n).
Proof.
  revert current. induction sizes as [|size rest IH]; intros current; simpl;
    [intros []|].
  intros [Heq | Hin].
  - inversion Heq. reflexivity.
  - eapply IH. exact Hin.
Qed.

Lemma SelectorCV_folds_eq (seqs : list sequence) :
  SelectorCV_folds seqs =
    if len seqs <=? 1 then Raise ValueError
    else Ok (kfold_from 0
               (fold_sizes (Nat.min 3 (List.length seqs)) (List.length seqs))
               (List.length seqs)).
Proof.
  unfold SelectorCV_folds, KFold, KFold_split, len.
  destruct (Z.of_nat (List.length seqs) <=? 1) eqn:Hle.
  - replace (Z.min 3 (Z.of_nat (List.length seqs)) <=? 1) with true
      by (symmetry; apply Z.leb_le; apply Z.leb_le in Hle; lia).
    reflexivity.
  - apply Z.leb_gt in Hle.
    replace (Z.min 3 (Z.of_nat (List.length seqs)) <=? 1) with false
      by (symmetry; apply Z.leb_gt; lia).
    replace (Z.of_nat (List.length seqs) <? Z.min 3 (Z.of_nat (List.length seqs)))
      with false by (symmetry; apply Z.ltb_ge; lia).
    replace (Z.to_nat (Z.min 3 (Z.of_nat (List.length seqs))))
      with (Nat.min 3 (List.length seqs)) by lia.
    reflexivity.
Qed.

(** Indices below the number of sequences can be combined. *)
Lemma combine_sequences_ok (idx : list nat) (seqs : list sequence) :
  Forall (fun i => (i < List.length seqs)%nat) idx ->
  exists d, combine_sequences idx seqs = Ok d.
Proof.
  intros Hall. unfold combine_sequences.
  assert (Ht : exists l, take_sequences idx seqs = Ok l).
  { induction Hall as [|i idx Hi Hall IH]; simpl; [eauto|].
    destruct (nth_error seqs i) as [sq|] eqn:Hnth.
    - destruct IH as [l Hl]. rewrite Hl. eauto.
    - apply nth_error_None in Hnth. lia. }
  destruct Ht as [l Hl]. rewrite Hl. eauto.
Qed.

(** When the splitter accepts the word there is a first fold, and its
    training view can be built. *)
Lemma SelectorCV_folds_first (seqs : list sequence) (folds : list (list nat * list nat)) :
  SelectorCV_folds seqs = Ok folds ->
  exists train_idx test_idx rest d,
    folds = (train_idx, test_idx) :: rest /\
    combine_sequences train_idx seqs = Ok d.
Proof.
  rewrite SelectorCV_folds_eq. unfold len.
  destruct (Z.of_nat (List.length seqs) <=? 1) eqn:Hle; [discriminate|].
  apply Z.leb_gt in Hle. intros Heq.
  assert (Hf : folds = kfold_from 0
                 (fold_sizes (Nat.min 3 (List.length seqs)) (List.length seqs))
                 (List.length seqs)) by congruence.
  subst folds. clear Heq.
  assert (Hk : (0 < Nat.min 3 (List.length seqs))%nat) by lia.
  pose proof (fold_sizes_length _ (List.length seqs) Hk) as Hlen.
  destruct (fold_sizes (Nat.min 3 (List.length seqs)) (List.length seqs))
    as [|size rest]; [cbn [List.length] in Hlen; lia|].
  simpl.
  destruct (combine_sequences_ok
              (filter (fun i => negb (existsb (Nat.eqb i) (seq 0 size)))
                 (seq 0 (List.length seqs))) seqs) as [d Hd].
  { apply Forall_forall. intros i Hi. apply filter_In in Hi.
    destruct Hi as [Hi _]. apply in_seq in Hi. lia. }
  do 4 eexists. split; [reflexivity | exact Hd].
Qed.

(** ** The selector object under the cross-validated selector *)

Lemma same_config_refl (self : ModelSelector) : same_config self self.
Proof. destruct self. reflexivity. Qed.

Lemma same_config_assign (self : ModelSelector) (d : matrix * list Z) :
  same_config self (assign_Xlengths self d).
Proof. reflexivity. Qed.

Lemma same_config_trans (s1 s2 s3 : ModelSelector) :
  same_config s1 s2 -> same_config s2 s3 -> same_config s1 s3.
Proof.
  unfold same_config. intros H12 H23. rewrite H23. rewrite H12 at 1. reflexivity.
Qed.

Lemma same_config_assign_eq (self self' : ModelSelector) (d : matrix * list Z) :
  same_config self self' -> assign_Xlengths self' d = assign_Xlengths self d.
Proof. unfold same_config. intros H. rewrite H. reflexivity. Qed.

Lemma same_config_fields (self self' : ModelSelector) :
  same_config self self' ->
  sequences self' = sequences self /\
  random_state self' = random_state self /\
  n_constant self' = n_constant self /\
  min_n_components self' = min_n_components self /\
  max_n_components self' = max_n_components self.
Proof. unfold same_config. intros H. rewrite H. repeat split. Qed.

Lemma config_stable_of_stable {A : Type} (c : M A) : stable c -> config_stable c.
Proof. intros Hc s. rewrite Hc. apply same_config_refl. Qed.

Lemma config_stable_bind {A B : Type} (c : M A) (k : A -> M B) :
  config_stable c -> (forall a, config_stable (k a)) -> config_stable (bind c k).
Proof.
  intros Hc Hk s. unfold bind. specialize (Hc s).
  destruct (c s) as [[[a | e] s1] o1]; unfold self_of in *; simpl in *.
  - specialize (Hk a s1). destruct (k a s1) as [[r s2] o2]. simpl in *.
    eapply same_config_trans; eauto.
  - exact Hc.
Qed.

Lemma config_stable_for_each {A S : Type} (xs : list A) (body : A -> S -> M S) :
  (forall x acc, config_stable (body x acc)) ->
  forall acc, config_stable (for_each xs body acc).
Proof.
  intros Hb. induction xs as [|x xs IH]; intros acc; simpl.
  - apply config_stable_of_stable. intros s. reflexivity.
  - apply config_stable_bind; auto.
Qed.

Lemma config_stable_try {A : Type} (body handler : M A) :
  config_stable body -> config_stable handler -> config_stable (try_except body handler).
Proof.
  intros Hb Hh s. unfold try_except. specialize (Hb s).
  destruct (body s) as [[[a | e] s1] o1]; unfold self_of in *; simpl in *.
  - exact Hb.
  - specialize (Hh s1). destruct (handler s1) as [[r s2] o2]. simpl in *.
    eapply same_config_trans; eauto.
Qed.

Section CrossValidated.

Context {L : HMMLib}.

Lemma config_stable_SelectorCV_fold (n_components : Z) (fold : list nat * list nat)
    (acc : list float * option Model) :
  config_stable (SelectorCV_fold n_components fold acc).
Proof.
  unfold SelectorCV_fold. destruct fold as [cv_train_idx cv_test_idx].
  destruct acc as [logL_arr hm0].
  apply config_stable_bind; [apply config_stable_of_stable, stable_get_self|].
  intros self.
  apply config_stable_bind; [apply config_stable_of_stable, stable_lift|].
  intros train.
  apply config_stable_bind; [intros s; apply same_config_assign|]. intros _.
  apply config_stable_bind; [apply config_stable_of_stable, stable_base_model|].
  intros hmm_model.
  apply config_stable_bind; [apply config_stable_of_stable, stable_lift|].
  intros [X_test test_lengths].
  apply config_stable_bind; [apply config_stable_of_stable, stable_score_method|].
  intros logL. apply config_stable_of_stable, stable_ret.
Qed.

Lemma config_stable_SelectorCV_body (n_components : Z) (acc : float * option Model) :
  config_stable (SelectorCV_body n_components acc).
Proof.
  unfold SelectorCV_body. destruct acc as [best_score best_model].
  apply config_stable_bind; [apply config_stable_of_stable, stable_get_self|].
  intros self.
  apply config_stable_bind; [apply config_stable_of_stable, stable_lift|].
  intros folds.
  apply config_stable_bind.
  { apply config_stable_for_each. intros. apply config_stable_SelectorCV_fold. }
  intros [logL_arr hmm_model].
  destruct (float_gt _ _); apply config_stable_of_stable, stable_ret.
Qed.

Lemma config_stable_SelectorCV_search : config_stable SelectorCV_search.
Proof.
  unfold SelectorCV_search.
  apply config_stable_bind; [apply config_stable_of_stable, stable_get_self|].
  intros self.
  apply config_stable_bind.
  { apply config_stable_for_each. intros. apply config_stable_SelectorCV_body. }
  intros [best_score best_model]. apply config_stable_of_stable, stable_ret.
Qed.

Lemma config_stable_SelectorCV_select : config_stable SelectorCV_select.
Proof.
  apply config_stable_try; [apply config_stable_SelectorCV_search|].
  apply config_stable_of_stable.
  apply stable_bind; [apply stable_get_self|]. intros s. apply stable_base_model.
Qed.

End CrossValidated.

(** ** A failing fold *)

Section FoldFailure.

Context {L : HMMLib}.

Lemma SelectorCV_fold_fails (n_components : Z) (cv_train_idx cv_test_idx : list nat)
    (acc : list float * option Model) (s : ModelSelector)
    (X_train : matrix) (train_lengths : list Z) (X_test : matrix) (test_lengths : list Z) :
  combine_sequences cv_train_idx (sequences s) = Ok (X_train, train_lengths) ->
  combine_sequences cv_test_idx (sequences s) = Ok (X_test, test_lengths) ->
  (GaussianHMM_fit n_components (random_state s) X_train train_lengths = None \/
   exists m, GaussianHMM_fit n_components (random_state s) X_train train_lengths = Some m /\
             Model_score m X_test test_lengths = None) ->
  fails (SelectorCV_fold n_components (cv_train_idx, cv_test_idx) acc) s.
Proof.
  intros Htr Hte Hbad. unfold SelectorCV_fold. destruct acc as [logL_arr hm0].
  eapply bind_fails_r; [reflexivity|].
  eapply bind_fails_r; [unfold lift; rewrite Htr; reflexivity|].
  eapply bind_fails_r; [reflexivity|].
  eapply bind_fails_r; [apply base_model_run|].
  eapply bind_fails_r; [unfold lift; rewrite Hte; reflexivity|].
  apply bind_fails_l. simpl. unfold score_method.
  destruct Hbad as [Hfit | [m [Hfit Hsc]]]; rewrite Hfit.
  - exists AttributeError. reflexivity.
  - rewrite Hsc. exists TrainerError. reflexivity.
Qed.

(** C5, amended: when, for some candidate of the range and some fold, the
    fit on the fold's training view fails or the fitted model cannot score
    the held-out view, the search of [SelectorCV.select()] ends with an
    exception: the fold is not left out of an average and the search does
    not go on.  [select()] then returns what [base_model(n_constant)]
    returns on the selector object as the search left it, which differs
    from the object [select()] was called on in [X] and [lengths] at
    most. *)
Theorem SelectorCV_fold_failure_ends_search (self : ModelSelector)
    (folds : list (list nat * list nat)) (n_components : Z)
    (cv_train_idx cv_test_idx : list nat)
    (X_train : matrix) (train_lengths : list Z) (X_test : matrix) (test_lengths : list Z) :
  min_n_components self <= n_components <= max_n_components self ->
  SelectorCV_folds (sequences self) = Ok folds ->
  In (cv_train_idx, cv_test_idx) folds ->
  combine_sequences cv_train_idx (sequences self) = Ok (X_train, train_lengths) ->
  combine_sequences cv_test_idx (sequences self) = Ok (X_test, test_lengths) ->
  (GaussianHMM_fit n_components (random_state self) X_train train_lengths = None \/
   exists m, GaussianHMM_fit n_components (random_state self) X_train train_lengths = Some m /\
             Model_score m X_test test_lengths = None) ->
  fails SelectorCV_search self /\
  value_of (SelectorCV_select self) =
    value_of (base_model (n_constant self) (self_of (SelectorCV_select self))) /\
  self_of (SelectorCV_select self) = self_of (SelectorCV_search self) /\
  same_config self (self_of (SelectorCV_select self)).
Proof.
  intros Hn Hfolds Hin Htr Hte Hbad.
  assert (Hf : fails SelectorCV_search self).
  { unfold SelectorCV_search.
    eapply bind_fails_r; [reflexivity|].
    apply bind_fails_l.
    apply (for_each_fails_in (same_config self) n_components).
    - intros x acc s Hs. eapply same_config_trans; [exact Hs|].
      apply config_stable_SelectorCV_body.
    - intros [best_score best_model] s Hs.
      destruct (same_config_fields _ _ Hs) as [Hseq [Hseed _]].
      unfold SelectorCV_body.
      eapply bind_fails_r; [reflexivity|].
      eapply bind_fails_r; [unfold lift; rewrite Hseq, Hfolds; reflexivity|].
      apply bind_fails_l.
      apply (for_each_fails_in (same_config s) (cv_train_idx, cv_test_idx)).
      + intros x acc s' Hs'. eapply same_config_trans; [exact Hs'|].
        apply config_stable_SelectorCV_fold.
      + intros acc s' Hs'.
        destruct (same_config_fields _ _ Hs') as [Hseq' [Hseed' _]].
        eapply SelectorCV_fold_fails.
        * rewrite Hseq', Hseq. exact Htr.
        * rewrite Hseq', Hseq. exact Hte.
        * rewrite Hseed', Hseed. exact Hbad.
      + exact Hin.
      + apply same_config_refl.
    - apply in_range. lia.
    - apply same_config_refl. }
  split; [exact Hf|].
  destruct (try_fallback_fails _ _ Hf) as [Hv Hs].
  fold SelectorCV_select in Hv, Hs.
  pose proof (config_stable_SelectorCV_select self) as Hc.
  destruct (same_config_fields _ _ Hc) as [_ [Hseed [Hnc _]]].
  repeat split.
  - rewrite base_model_run, Hv, Hs. rewrite Hs in Hseed, Hnc.
    rewrite Hseed, Hnc. reflexivity.
  - exact Hs.
  - exact Hc.
Qed.

End FoldFailure.

Lemma SelectorCV_fold_failure_ends_search_witness :
  exists self,
    Example.construct Example.book_short 1 2 3 true = Ok self /\
    fails (SelectorCV_search (L := Example.toy)) self /\
    value_of (SelectorCV_select (L := Example.toy) self) =
      value_of (base_model (L := Example.toy) (n_constant self)
                  (self_of (SelectorCV_select (L := Example.toy) self))) /\
    self_of (SelectorCV_select (L := Example.toy) self) =
      self_of (SelectorCV_search (L := Example.toy) self) /\
    same_config self (self_of (SelectorCV_select (L := Example.toy) self)).
Proof.
  eexists. split; [reflexivity|].
  eapply (SelectorCV_fold_failure_ends_search (L := Example.toy) _ _ 2 [1; 2]%nat [0%nat]).
  - vm_compute. split; discriminate.
  - reflexivity.
  - left. reflexivity.
  - reflexivity.
  - reflexivity.
  - right. eexists. split; reflexivity.
Defined.

(** C5, as stated, fails: the word has the sequences [short; s1; s2], the
    range is [2..3] and [n_constant = 1].  For the candidate with 2 states
    the first fold's model cannot score its held-out view; the second
    fold's fit and score would succeed.  [select()] returns the fallback
    model with one state, and the printed lines show a single fit of the
    candidate and then the fallback: the other folds and the candidate with
    3 states were never tried. *)
Lemma SelectorCV_fold_failure_counterexample :
  exists self m1 m2 logL,
    Example.construct Example.book_short 1 2 3 true = Ok self /\
    SelectorCV_folds (sequences self) =
      Ok [([1; 2], [0]); ([0; 2], [1]); ([0; 1], [2])]%nat /\
    @GaussianHMM_fit Example.toy 2 (random_state self)
      (Example.s1 ++ Example.s2) [2; 2] = Some m1 /\
    @Model_score Example.toy m1 Example.short [1] = None /\
    @GaussianHMM_fit Example.toy 2 (random_state self)
      (Example.short ++ Example.s2) [1; 2] = Some m2 /\
    @Model_score Example.toy m2 Example.s1 [2] = Some logL /\
    SelectorCV_select (L := Example.toy) self =
      (Ok (Some (Example.mkToy 1 (Example.s1 ++ Example.s2) [2; 2])),
       assign_Xlengths self (Example.s1 ++ Example.s2, [2; 2]),
       [model_created "BOOK" 2; model_created "BOOK" 1]).
Proof.
  do 4 eexists. repeat split; vm_compute; reflexivity.
Qed.

(** ** A search that completes *)

Section Completed.

Context {L : HMMLib}.

Lemma bind_ok_inv {A B : Type} (c : M A) (k : A -> M B) (s s' : ModelSelector)
    (b : B) (out : list msg) :
  bind c k s = (Ok b, s', out) ->
  exists a s1 out1 out2,
    c s = (Ok a, s1, out1) /\ k a s1 = (Ok b, s', out2) /\ out = out1 ++ out2.
Proof.
  unfold bind. destruct (c s) as [[[a | e] s1] out1]; [|discriminate].
  destruct (k a s1) as [[r s2] out2] eqn:Hk. intros H. inversion H. subst.
  exists a, s1, out1, out2. repeat split. exact Hk.
Qed.

(** One fold that goes through: the training view is assigned to the
    selector object, the model is the fit on it, one score is appended. *)
Lemma SelectorCV_fold_ok (n_components : Z) (cv_train_idx cv_test_idx : list nat)
    (acc acc1 : list float * option Model) (s s1 : ModelSelector) (out1 : list msg) :
  SelectorCV_fold n_components (cv_train_idx, cv_test_idx) acc s = (Ok acc1, s1, out1) ->
  exists d,
    combine_sequences cv_train_idx (sequences s) = Ok d /\
    s1 = assign_Xlengths s d /\
    snd acc1 = GaussianHMM_fit n_components (random_state s) (fst d) (snd d) /\
    List.length (fst acc1) = S (List.length (fst acc)).
Proof.
  unfold SelectorCV_fold. destruct acc as [logL_arr hm0]. intros H.
  apply bind_ok_inv in H. destruct H as [self [s0 [o0 [o0' [Hg [H _]]]]]].
  inversion Hg. subst self s0 o0. clear Hg.
  apply bind_ok_inv in H. destruct H as [d [s0 [o0 [o1 [Hd [H _]]]]]].
  unfold lift in Hd. inversion Hd. subst s0 o0. clear Hd.
  apply bind_ok_inv in H. destruct H as [u [s0 [o0 [o2 [Hset [H _]]]]]].
  inversion Hset. subst s0 o0. clear Hset.
  apply bind_ok_inv in H. destruct H as [hmm_model [s0 [o0 [o3 [Hb [H _]]]]]].
  rewrite base_model_run in Hb. inversion Hb. subst s0 o0. clear Hb.
  apply bind_ok_inv in H. destruct H as [[X_test test_lengths] [s0 [o0 [o4 [Ht [H _]]]]]].
  unfold lift in Ht. inversion Ht. subst s0 o0. clear Ht.
  apply bind_ok_inv in H. destruct H as [logL [s0 [o0 [o5 [Hsc [H _]]]]]].
  pose proof (stable_score_method hmm_model X_test test_lengths (assign_Xlengths s d)) as Hst.
  rewrite Hsc in Hst. unfold self_of in Hst. simpl in Hst. subst s0.
  inversion H. subst.
  exists d. repeat split; auto.
  simpl. rewrite length_app. simpl. lia.
Qed.

(** A fold loop that goes through leaves the last fold's training view on
    the selector object and the last fold's model in [hmm_model]; every
    fold has appended its score. *)
Lemma SelectorCV_folds_loop_ok (n_components : Z) (folds : list (list nat * list nat)) :
  forall (acc acc' : list float * option Model) (s s' : ModelSelector) (out : list msg),
  folds <> [] ->
  for_each folds (SelectorCV_fold n_components) acc s = (Ok acc', s', out) ->
  exists d,
    combine_sequences (fst (last folds ([], []))) (sequences s) = Ok d /\
    s' = assign_Xlengths s d /\
    snd acc' = GaussianHMM_fit n_components (random_state s) (fst d) (snd d) /\
    List.length (fst acc') = (List.length (fst acc) + List.length folds)%nat.
Proof.
  induction folds as [|[tr te] rest IH]; intros acc acc' s s' out Hne H;
    [congruence|].
  simpl in H. apply bind_ok_inv in H.
  destruct H as [acc1 [s1 [o1 [o2 [Hf [Hrest _]]]]]].
  apply SelectorCV_fold_ok in Hf. destruct Hf as [d [Hd [Hs1 [Hm Hlen]]]].
  destruct rest as [|f' rest'].
  - simpl in Hrest. inversion Hrest. subst.
    exists d. simpl. repeat split; auto. lia.
  - apply IH in Hrest; [|discriminate].
    destruct Hrest as [d' [Hd' [Hs' [Hm' Hlen']]]].
    subst s1. exists d'. repeat split; auto.
    rewrite Hlen', Hlen. simpl. lia.
Qed.

(** One candidate that goes through. *)
Lemma SelectorCV_body_ok (n_components : Z) (acc acc' : float * option Model)
    (s s' : ModelSelector) (out : list msg) :
  SelectorCV_body n_components acc s = (Ok acc', s', out) ->
  exists folds d,
    SelectorCV_folds (sequences s) = Ok folds /\
    combine_sequences (fst (last folds ([], []))) (sequences s) = Ok d /\
    s' = assign_Xlengths s d /\
    (snd acc' = snd acc \/
     snd acc' = GaussianHMM_fit n_components (random_state s) (fst d) (snd d)).
Proof.
  unfold SelectorCV_body. destruct acc as [best_score best_model]. intros H.
  apply bind_ok_inv in H. destruct H as [self [s0 [o0 [o0' [Hg [H _]]]]]].
  inversion Hg. subst self s0 o0. clear Hg.
  apply bind_ok_inv in H. destruct H as [folds [s0 [o0 [o1 [Hfs [H _]]]]]].
  unfold lift in Hfs. inversion Hfs as [[Hfolds Hs0 Ho0]]. subst s0 o0. clear Hfs.
  apply bind_ok_inv in H. destruct H as [[logL_arr hmm_model] [s1 [o2 [o3 [Hloop [H _]]]]]].
  destruct (SelectorCV_folds_first _ _ Hfolds) as [tr [te [rest [d0 [Hcons _]]]]].
  apply SelectorCV_folds_loop_ok in Hloop; [|rewrite Hcons; discriminate].
  destruct Hloop as [d [Hd [Hs1 [Hm _]]]]. simpl in Hm.
  exists folds, d. repeat split; auto.
  - destruct (float_gt _ _); inversion H; subst; reflexivity.
  - destruct (float_gt _ _); inversion H; subst; simpl; auto.
Qed.

(** A candidate loop that goes through. *)
Lemma SelectorCV_loop_ok (candidates : list Z) :
  forall (acc acc' : float * option Model) (s s' : ModelSelector) (out : list msg),
  candidates <> [] ->
  for_each candidates SelectorCV_body acc s = (Ok acc', s', out) ->
  exists folds d,
    SelectorCV_folds (sequences s) = Ok folds /\
    combine_sequences (fst (last folds ([], []))) (sequences s) = Ok d /\
    s' = assign_Xlengths s d /\
    (snd acc' = snd acc \/
     exists n, In n candidates /\
       snd acc' = GaussianHMM_fit n (random_state s) (fst d) (snd d)).
Proof.
  induction candidates as [|c rest IH]; intros acc acc' s s' out Hne H;
    [congruence|].
  simpl in H. apply bind_ok_inv in H.
  destruct H as [acc1 [s1 [o1 [o2 [Hb [Hrest _]]]]]].
  apply SelectorCV_body_ok in Hb.
  destruct Hb as [folds [d [Hfolds [Hd [Hs1 Hm]]]]].
  exists folds, d. split; [exact Hfolds|]. split; [exact Hd|].
  destruct rest as [|c' rest'].
  - simpl in Hrest. inversion Hrest. subst. split; [reflexivity|].
    destruct Hm as [Hm | Hm]; [left; exact Hm|].
    right. exists c. split; [left; reflexivity | exact Hm].
  - apply IH in Hrest; [|discriminate].
    destruct Hrest as [folds' [d' [Hfolds' [Hd' [Hs' Hm']]]]].
    subst s1. simpl in Hfolds', Hd', Hm'.
    assert (folds' = folds) by congruence. subst folds'.
    assert (d' = d) by congruence. subst d'.
    split; [exact Hs'|].
    destruct Hm' as [Hm' | [n [Hin Hm']]].
    + rewrite Hm'. destruct Hm as [Hm | Hm]; [left; exact Hm|].
      right. exists c. split; [left; reflexivity | exact Hm].
    + right. exists n. split; [right; exact Hin | exact Hm'].
Qed.

(** C4, amended: when the search of [SelectorCV.select()] completes with a
    model, [select()] returns that model, and it is the one fitted, for a
    candidate [n] of the range, on the training view of the last fold (the
    sequences outside the last fold); that view is also what [self.X] and
    [self.lengths] hold afterwards.  No fit on the whole-word view takes
    place. *)
Theorem SelectorCV_returns_last_fold_model (self self' : ModelSelector)
    (m : Model) (out : list msg) :
  SelectorCV_search self = (Ok (Some m), self', out) ->
  SelectorCV_select self = (Ok (Some m), self', out) /\
  exists folds cv_train_idx cv_test_idx X_train train_lengths n,
    SelectorCV_folds (sequences self) = Ok folds /\
    last folds ([], []) = (cv_train_idx, cv_test_idx) /\
    combine_sequences cv_train_idx (sequences self) = Ok (X_train, train_lengths) /\
    min_n_components self <= n <= max_n_components self /\
    GaussianHMM_fit n (random_state self) X_train train_lengths = Some m /\
    X self' = X_train /\ lengths self' = train_lengths.
Proof.
  intros Hs. split.
  { unfold SelectorCV_select. apply try_fallback_ok. exact Hs. }
  unfold SelectorCV_search in Hs.
  apply bind_ok_inv in Hs. destruct Hs as [self0 [s0 [o0 [o0' [Hg [H _]]]]]].
  inversion Hg. subst self0 s0 o0. clear Hg.
  apply bind_ok_inv in H. destruct H as [[best_score best_model] [s1 [o1 [o2 [Hloop [H _]]]]]].
  inversion H. subst best_model s1. clear H.
  destruct (range (min_n_components self) (max_n_components self + 1)) as [|c rest] eqn:Hr.
  { simpl in Hloop. inversion Hloop. }
  rewrite <- Hr in Hloop.
  apply SelectorCV_loop_ok in Hloop; [|rewrite Hr; discriminate].
  destruct Hloop as [folds [[X_train train_lengths] [Hfolds [Hd [Hs' Hm]]]]].
  simpl in Hm. destruct Hm as [Hm | [n [Hin Hm]]]; [discriminate|].
  destruct (last folds ([], [])) as [tr te] eqn:Hlast.
  exists folds, tr, te, X_train, train_lengths, n.
  apply in_range in Hin. subst self'. simpl in *.
  repeat split; auto; lia.
Qed.

End Completed.

Lemma SelectorCV_returns_last_fold_model_witness :
  exists self folds cv_train_idx cv_test_idx X_train train_lengths n,
    Example.construct Example.book3 3 2 2 false = Ok self /\
    SelectorCV_folds (sequences self) = Ok folds /\
    last folds ([], []) = (cv_train_idx, cv_test_idx) /\
    combine_sequences cv_train_idx (sequences self) = Ok (X_train, train_lengths) /\
    min_n_components self <= n <= max_n_components self /\
    @GaussianHMM_fit Example.toy n (random_state self) X_train train_lengths =
      Some (Example.mkToy 2 (Example.s1 ++ Example.s2) [2; 2]).
Proof.
  eexists.
  destruct (SelectorCV_returns_last_fold_model (L := Example.toy)
              _ _ (Example.mkToy 2 (Example.s1 ++ Example.s2) [2; 2]) _
              (eq_refl : SelectorCV_search (L := Example.toy)
                           (mkSelector Example.book3 (Example.corpus Example.book3)
                              [Example.s1; Example.s2; Example.s3]
                              (Example.s1 ++ Example.s2 ++ Example.s3) [2; 2; 2]
                              "BOOK" 3 2 2 14 false (Example.corpus Example.book3))
                         = (Ok (Some (Example.mkToy 2 (Example.s1 ++ Example.s2) [2; 2])),
                            _, [])))
    as [_ [folds [tr [te [X_train [train_lengths [n [H1 [H2 [H3 [H4 [H5 _]]]]]]]]]]]].
  exists folds, tr, te, X_train, train_lengths, n.
  split; [reflexivity|]. repeat split; try assumption; apply H4.
Defined.

(** C4, as stated, fails: the word has three sequences of two frames, the
    range is [2..2].  The search completes; the model returned was fitted
    on the four frames of the first two sequences, the training view of the
    last fold, and not on the six frames of the whole-word view. *)
Lemma SelectorCV_returns_last_fold_model_counterexample :
  exists self m,
    Example.construct Example.book3 3 2 2 false = Ok self /\
    X self = Example.s1 ++ Example.s2 ++ Example.s3 /\
    value_of (SelectorCV_select (L := Example.toy) self) = Ok (Some m) /\
    Example.toy_X m = Example.s1 ++ Example.s2 /\
    (forall n, @GaussianHMM_fit Example.toy n (random_state self) (X self) (lengths self)
               <> Some m).
Proof.
  do 2 eexists. repeat split; try (vm_compute; reflexivity).
  intros n. simpl. unfold Example.toy_fit.
  destruct ((1 <=? n) && (n <=? _)); [|discriminate].
  vm_compute. intros H. inversion H.
Qed.

(** ** Calling [select] again *)

Section Again.

Context {L : HMMLib}.

Lemma bind_congr {A B : Type} (c : M A) (k : A -> M B) (s1 s2 : ModelSelector) :
  c s1 = c s2 -> bind c k s1 = bind c k s2.
Proof. intros H. unfold bind. rewrite H. reflexivity. Qed.

Lemma try_except_congr {A : Type} (body handler : M A) (s1 s2 : ModelSelector) :
  body s1 = body s2 -> try_except body handler s1 = try_except body handler s2.
Proof. intros H. unfold try_except. rewrite H. reflexivity. Qed.

Lemma stable_try {A : Type} (body handler : M A) :
  stable body -> stable handler -> stable (try_except body handler).
Proof.
  intros Hb Hh s. unfold try_except. specialize (Hb s).
  destruct (body s) as [[[a | e] s1] o1]; unfold self_of in *; simpl in *; subst s1.
  - reflexivity.
  - specialize (Hh s). destruct (handler s) as [[r s2] o2]. exact Hh.
Qed.

Lemma stable_fallback : stable (self0 <- get_self ;; base_model (n_constant self0)).
Proof. apply stable_bind; [apply stable_get_self|]. intros s. apply stable_base_model. Qed.

Lemma stable_SelectorBIC_select : stable SelectorBIC_select.
Proof.
  apply stable_try; [|apply stable_fallback].
  unfold SelectorBIC_search.
  apply stable_bind; [apply stable_get_self|]. intros self.
  apply stable_bind.
  - apply stable_for_each. intros n acc s. rewrite SelectorBIC_body_raises. reflexivity.
  - intros [best_score best_model]. apply stable_ret.
Qed.

Lemma stable_SelectorDIC_select : stable SelectorDIC_select.
Proof. apply stable_try; [apply stable_SelectorDIC_search | apply stable_fallback]. Qed.

(** A fold first assigns its training view, so what [X] and [lengths] held
    before does not matter. *)
Lemma SelectorCV_fold_assign (n_components : Z) (cv_train_idx cv_test_idx : list nat)
    (acc : list float * option Model) (s : ModelSelector) (d d0 : matrix * list Z) :
  combine_sequences cv_train_idx (sequences s) = Ok d0 ->
  SelectorCV_fold n_components (cv_train_idx, cv_test_idx) acc (assign_Xlengths s d) =
  SelectorCV_fold n_components (cv_train_idx, cv_test_idx) acc s.
Proof.
  intros Hd. unfold SelectorCV_fold. destruct acc as [logL_arr hm0].
  unfold bind at 1 7. unfold get_self at 1 2.
  unfold bind at 1 6. unfold lift at 1 3. simpl sequences. rewrite Hd.
  unfold bind at 1 5. unfold set_Xlengths. reflexivity.
Qed.

Lemma SelectorCV_body_assign (n_components : Z) (acc : float * option Model)
    (s : ModelSelector) (d : matrix * list Z) (folds : list (list nat * list nat)) :
  SelectorCV_folds (sequences s) = Ok folds ->
  SelectorCV_body n_components acc (assign_Xlengths s d) =
  SelectorCV_body n_components acc s.
Proof.
  intros Hfolds.
  destruct (SelectorCV_folds_first _ _ Hfolds) as [tr [te [rest [d0 [Hcons Hd0]]]]].
  unfold SelectorCV_body. destruct acc as [best_score best_model].
  unfold bind at 1 4. unfold get_self.
  unfold bind at 1 3. unfold lift. simpl sequences. rewrite Hfolds, Hcons.
  rewrite (bind_congr _ _ (assign_Xlengths s d) s); [reflexivity|].
  cbn [for_each]. apply bind_congr. eapply SelectorCV_fold_assign. exact Hd0.
Qed.

Lemma SelectorCV_search_assign (s : ModelSelector) (d : matrix * list Z)
    (folds : list (list nat * list nat)) :
  min_n_components s <= max_n_components s ->
  SelectorCV_folds (sequences s) = Ok folds ->
  SelectorCV_search (assign_Xlengths s d) = SelectorCV_search s.
Proof.
  intros Hr Hfolds. unfold SelectorCV_search.
  unfold bind at 1 3. unfold get_self.
  simpl min_n_components. simpl max_n_components.
  rewrite range_cons by lia.
  rewrite (bind_congr _ _ (assign_Xlengths s d) s); [reflexivity|].
  cbn [for_each]. apply bind_congr. eapply SelectorCV_body_assign. exact Hfolds.
Qed.

(** When the search assigns nothing, it leaves the selector object alone:
    the range is empty, or the splitter rejects the word. *)
Lemma SelectorCV_search_stable_cases (s : ModelSelector) :
  max_n_components s < min_n_components s \/
  (exists e, SelectorCV_folds (sequences s) = Raise e) ->
  self_of (SelectorCV_select s) = s.
Proof.
  intros Hc.
  assert (Hs : self_of (SelectorCV_search s) = s).
  { unfold SelectorCV_search. destruct Hc as [Hr | [e He]].
    - unfold bind at 1. unfold get_self. rewrite range_nil by lia. reflexivity.
    - unfold bind at 1. unfold get_self.
      destruct (range (min_n_components s) (max_n_components s + 1)) as [|c rest];
        [reflexivity|].
      simpl. unfold SelectorCV_body at 1. unfold bind, get_self, lift.
      rewrite He. reflexivity. }
  unfold SelectorCV_select, try_except.
  destruct (SelectorCV_search s) as [[[v | e] s1] o1]; unfold self_of in *;
    simpl in *; subst s1; [reflexivity|].
  rewrite fallback_run. reflexivity.
Qed.

End Again.

(** C8, amended: [SelectorConstant], [SelectorBIC] and [SelectorDIC] leave
    the selector object as it was.  [SelectorCV] may change [self.X] and
    [self.lengths] (the training view of the fold it evaluated last stays
    there) and nothing else.  For every strategy a second [select()] on the
    object the first one left returns the same value, leaves the same
    object and prints the same lines as the first. *)
Theorem select_again {L : HMMLib} (strategy : Strategy) (self : ModelSelector) :
  (strategy <> CV -> self_of (select strategy self) = self) /\
  same_config self (self_of (select strategy self)) /\
  select strategy (self_of (select strategy self)) = select strategy self.
Proof.
  assert (Hstable : forall c : M (option Model), stable c ->
            self_of (c self) = self /\
            same_config self (self_of (c self)) /\
            c (self_of (c self)) = c self).
  { intros c Hc. rewrite Hc. repeat split. apply same_config_refl. }
  destruct strategy; simpl.
  - destruct (Hstable SelectorConstant_select) as [H1 [H2 H3]]; [|auto].
    intros s. rewrite SelectorConstant_run. reflexivity.
  - destruct (Hstable SelectorBIC_select stable_SelectorBIC_select) as [H1 [H2 H3]].
    auto.
  - destruct (Hstable SelectorDIC_select stable_SelectorDIC_select) as [H1 [H2 H3]].
    auto.
  - split; [intros H; congruence|].
    pose proof (config_stable_SelectorCV_select self) as Hc.
    split; [exact Hc|].
    destruct (Z_lt_le_dec (max_n_components self) (min_n_components self)) as [Hr | Hr].
    { rewrite SelectorCV_search_stable_cases; auto. }
    destruct (SelectorCV_folds (sequences self)) as [folds | e] eqn:Hfolds.
    2:{ rewrite SelectorCV_search_stable_cases; eauto. }
    unfold same_config in Hc.
    set (s' := self_of (SelectorCV_select self)) in *.
    rewrite Hc. unfold SelectorCV_select.
    apply try_except_congr. eapply SelectorCV_search_assign; eauto.
Qed.

Lemma select_again_witness :
  exists self,
    Example.construct Example.book3 4 2 3 true = Ok self /\
    self_of (select (L := Example.toy) DIC self) = self /\
    select (L := Example.toy) CV (self_of (select (L := Example.toy) CV self)) =
      select (L := Example.toy) CV self.
Proof.
  eexists. split; [reflexivity|]. split.
  - refine (proj1 (select_again (L := Example.toy) DIC _) _). discriminate.
  - exact (proj2 (proj2 (select_again (L := Example.toy) CV _))).
Defined.

(** C8, as stated, fails: after [SelectorCV.select()] on a word with three
    sequences, [self.X] and [self.lengths] hold the four frames of the
    training view of a fold, no longer the six frames of the word. *)
Lemma select_again_counterexample :
  exists self,
    Example.construct Example.book3 4 2 3 false = Ok self /\
    X self = Example.s1 ++ Example.s2 ++ Example.s3 /\
    lengths self = [2; 2; 2] /\
    X (self_of (select (L := Example.toy) CV self)) = Example.s2 ++ Example.s3 /\
    lengths (self_of (select (L := Example.toy) CV self)) = [2; 2] /\
    self_of (select (L := Example.toy) CV self) <> self.
Proof.
  eexists. repeat split; try (vm_compute; reflexivity).
  vm_compute. intros H. inversion H.
Qed.

(** ** The fold count *)

(** C9, amended: for a word with at least two sequences [SelectorCV] splits
    the sequence indices into exactly [min(3, number of sequences)] folds;
    the test blocks are consecutive and together are the indices in order,
    and each training list is the complement of its test block; when the
    fold loop of a candidate completes, every fold has contributed one
    score to the list that is averaged.  For a word with fewer than two
    sequences the splitter raises [ValueError] and no fold is formed: with
    a non-empty range [select()] does what [SelectorConstant.select()]
    does. *)
Theorem SelectorCV_fold_count {L : HMMLib} (self : ModelSelector) :
  ((2 <= List.length (sequences self))%nat ->
   exists folds,
     SelectorCV_folds (sequences self) = Ok folds /\
     List.length folds = Nat.min 3 (List.length (sequences self)) /\
     List.concat (map snd folds) = seq 0 (List.length (sequences self)) /\
     (forall cv_train_idx cv_test_idx, In (cv_train_idx, cv_test_idx) folds ->
        cv_train_idx =
          filter (fun i => negb (existsb (Nat.eqb i) cv_test_idx))
            (seq 0 (List.length (sequences self)))) /\
     (forall n_components s logL_arr hmm_model s' out,
        for_each folds (SelectorCV_fold n_components) ([], None) s =
          (Ok (logL_arr, hmm_model), s', out) ->
        List.length logL_arr = List.length folds)) /\
  ((List.length (sequences self) < 2)%nat ->
   SelectorCV_folds (sequences self) = Raise ValueError /\
   (min_n_components self <= max_n_components self ->
    SelectorCV_search self = (Raise ValueError, self, []) /\
    SelectorCV_select self = SelectorConstant_select self)).
Proof.
  split; intros Hn.
  - rewrite SelectorCV_folds_eq. unfold len.
    replace (Z.of_nat (List.length (sequences self)) <=? 1) with false
      by (symmetry; apply Z.leb_gt; lia).
    eexists. split; [reflexivity|].
    assert (Hk : (0 < Nat.min 3 (List.length (sequences self)))%nat) by lia.
    split; [rewrite kfold_from_length; apply fold_sizes_length; exact Hk|].
    split; [rewrite kfold_from_tests, fold_sizes_sum by exact Hk; reflexivity|].
    split; [intros tr te Hin; eapply kfold_from_train; exact Hin|].
    intros n_components s logL_arr hmm_model s' out Hloop.
    apply SelectorCV_folds_loop_ok in Hloop.
    + destruct Hloop as [d [_ [_ [_ Hlen]]]]. exact Hlen.
    + intros Hnil. apply (f_equal (@List.length _)) in Hnil.
      rewrite kfold_from_length, fold_sizes_length in Hnil by exact Hk.
      cbn [List.length] in Hnil. lia.
  - assert (Hf : SelectorCV_folds (sequences self) = Raise ValueError).
    { rewrite SelectorCV_folds_eq. unfold len.
      replace (Z.of_nat (List.length (sequences self)) <=? 1) with true
        by (symmetry; apply Z.leb_le; lia).
      reflexivity. }
    split; [exact Hf|]. intros Hr.
    assert (Hs : SelectorCV_search self = (Raise ValueError, self, [])).
    { unfold SelectorCV_search. unfold bind at 1. unfold get_self.
      rewrite range_cons by lia. cbn [for_each].
      unfold bind at 1. unfold bind at 1.
      unfold SelectorCV_body at 1. unfold bind at 1. unfold get_self.
      unfold bind at 1. unfold lift. rewrite Hf. reflexivity. }
    split; [exact Hs|].
    unfold SelectorCV_select.
    rewrite (try_fallback_raise _ _ _ _ _ Hs), SelectorConstant_run. reflexivity.
Qed.

Lemma SelectorCV_fold_count_witness :
  exists self,
    Example.construct Example.book1 3 2 4 false = Ok self /\
    SelectorCV_folds (sequences self) = Raise ValueError /\
    SelectorCV_select (L := Example.toy) self =
      SelectorConstant_select (L := Example.toy) self.
Proof.
  eexists. split; [reflexivity|].
  destruct (proj2 (SelectorCV_fold_count (L := Example.toy)
                     (mkSelector Example.book1 (Example.corpus Example.book1)
                        [Example.s1] Example.s1 [2] "BOOK" 3 2 4 14 false
                        (Example.corpus Example.book1))))
    as [Hf Hsel].
  - simpl. lia.
  - split; [exact Hf|]. apply Hsel. simpl. lia.
Defined.

(** C9, as stated, fails: for a word with exactly one sequence the fold
    count is not one.  The splitter raises [ValueError], the search ends
    before any fold is formed or any candidate fitted, and [select()]
    returns the fallback, fitted on the word's view. *)
Lemma SelectorCV_fold_count_counterexample :
  exists self,
    Example.construct Example.book1 2 2 4 true = Ok self /\
    List.length (sequences self) = 1%nat /\
    KFold (Z.min 3 (len (sequences self))) = Raise ValueError /\
    SelectorCV_folds (sequences self) = Raise ValueError /\
    SelectorCV_search (L := Example.toy) self = (Raise ValueError, self, []) /\
    SelectorCV_select (L := Example.toy) self =
      (Ok (Some (Example.mkToy 2 Example.s1 [2])), self, [model_created "BOOK" 2]).
Proof.
  eexists. repeat split; vm_compute; reflexivity.
Qed.

(** ** The fallback of the cross-validated selector *)

(** C7: the word has three sequences of two frames, the range is [2..3]
    and [n_constant = 4].  The candidate with 3 states cannot score the
    held-out view of its first fold, so the search degrades to the
    fallback.  The fallback model is fitted on the four frames that
    [self.X] holds then, the training view of that fold, while
    [base_model(n_constant)] on the selector as constructed, which is what
    [SelectorConstant], [SelectorBIC] and [SelectorDIC] fall back to, is
    fitted on the six frames of the word. *)
Theorem SelectorCV_fallback_on_fold_view :
  exists self,
    Example.construct Example.book3 4 2 3 false = Ok self /\
    X self = Example.s1 ++ Example.s2 ++ Example.s3 /\
    fails (SelectorCV_search (L := Example.toy)) self /\
    value_of (SelectorCV_select (L := Example.toy) self) =
      Ok (Some (Example.mkToy 4 (Example.s2 ++ Example.s3) [2; 2])) /\
    value_of (base_model (L := Example.toy) (n_constant self) self) =
      Ok (Some (Example.mkToy 4 (Example.s1 ++ Example.s2 ++ Example.s3) [2; 2; 2])) /\
    value_of (SelectorConstant_select (L := Example.toy) self) =
      Ok (Some (Example.mkToy 4 (Example.s1 ++ Example.s2 ++ Example.s3) [2; 2; 2])).
Proof.
  eexists. repeat split; try (vm_compute; reflexivity).
  exists TrainerError. vm_compute. reflexivity.
Qed.

(** * Further properties *)

(** ** The constructor *)

Lemma dict_get_None {V : Type} (d : dict V) (k : string) :
  dict_get d k = None <-> ~ In k (dict_keys d).
Proof.
  unfold dict_keys. induction d as [|[k' v] d IH]; simpl.
  - split; auto.
  - destruct (String.eqb k k') eqn:Hk.
    + apply String.eqb_eq in Hk. subst k'. split; [discriminate|].
      intros H. exfalso. apply H. left. reflexivity.
    + apply String.eqb_neq in Hk. rewrite IH. split.
      * intros H [He | Hin]; [congruence | auto].
      * intros H Hin. apply H. right. exact Hin.
Qed.

(** X1: the constructor raises [KeyError] exactly when [this_word] is
    missing from one of the two dicts; otherwise it returns the selector
    whose [sequences], [X] and [lengths] are the entries of [this_word]
    and whose other attributes are the arguments. *)
Theorem ModelSelector_init_KeyError
    (all_word_sequences : dict (list sequence))
    (all_word_Xlengths0 : dict (matrix * list Z)) (this_word0 : string)
    (n_constant0 min0 max0 seed : Z) (verbose0 : bool) :
  (ModelSelector_init all_word_sequences all_word_Xlengths0 this_word0
     n_constant0 min0 max0 seed verbose0 = Raise KeyError <->
   ~ In this_word0 (dict_keys all_word_sequences) \/
   ~ In this_word0 (dict_keys all_word_Xlengths0)) /\
  (forall self,
     ModelSelector_init all_word_sequences all_word_Xlengths0 this_word0
       n_constant0 min0 max0 seed verbose0 = Ok self <->
     exists sequences0 X0 lengths0,
       dict_get all_word_sequences this_word0 = Some sequences0 /\
       dict_get all_word_Xlengths0 this_word0 = Some (X0, lengths0) /\
       self = mkSelector all_word_sequences all_word_Xlengths0 sequences0
                X0 lengths0 this_word0 n_constant0 min0 max0 seed verbose0
                all_word_Xlengths0).
Proof.
  unfold ModelSelector_init, getitem.
  rewrite <- !dict_get_None.
  destruct (dict_get all_word_sequences this_word0) as [sq|];
    [destruct (dict_get all_word_Xlengths0 this_word0) as [[X0 l0]|]|].
  - split.
    + split; [discriminate | intros [H | H]; discriminate].
    + intros self. split.
      * intros H. inversion H. eauto 6.
      * intros [sq' [X' [l' [H1 [H2 H3]]]]]. congruence.
  - split.
    + split; auto.
    + intros self. split; [discriminate|].
      intros [sq' [X' [l' [H1 [H2 H3]]]]]. discriminate.
  - split.
    + split; auto.
    + intros self. split; [discriminate|].
      intros [sq' [X' [l' [H1 [H2 H3]]]]]. discriminate.
Qed.

(** ** An empty search range *)

(** X2: when [max_n_components < min_n_components] the three searching
    selectors try no candidate and do not reach the fallback either:
    [select()] returns [None], fits nothing, prints nothing and leaves the
    selector object as it was. *)
Theorem select_empty_range {L : HMMLib} (strategy : Strategy) (self : ModelSelector) :
  strategy <> Constant ->
  max_n_components self < min_n_components self ->
  select strategy self = (Ok None, self, []).
Proof.
  intros Hs Hr. destruct strategy; [congruence| | |]; simpl;
    unfold SelectorBIC_select, SelectorDIC_select, SelectorCV_select;
    apply try_fallback_ok;
    unfold SelectorBIC_search, SelectorDIC_search, SelectorCV_search;
    unfold bind at 1; unfold get_self; rewrite range_nil by lia; reflexivity.
Qed.

Lemma select_empty_range_witness :
  exists self,
    Example.construct Example.book3 3 5 2 true = Ok self /\
    select (L := Example.toy) DIC self = (Ok None, self, []) /\
    value_of (SelectorConstant_select (L := Example.toy) self) =
      Ok (Some (Example.mkToy 3 (X self) (lengths self))).
Proof.
  eexists. split; [reflexivity|]. split.
  - apply (select_empty_range (L := Example.toy) DIC).
    + discriminate.
    + simpl. lia.
  - reflexivity.
Defined.

(** ** More on the discriminative selector *)

Section DiscriminativeMore.

Context {L : HMMLib}.

Lemma SelectorDIC_fallback_of_fails (self : ModelSelector) :
  fails SelectorDIC_search self ->
  value_of (SelectorDIC_select self) = value_of (SelectorConstant_select self) /\
  self_of (SelectorDIC_select self) = self.
Proof.
  intros Hf.
  destruct (try_fallback_fails _ _ Hf) as [Hv Hs].
  fold SelectorDIC_select in Hv, Hs.
  rewrite stable_SelectorDIC_search in Hv, Hs.
  rewrite Hv, Hs, SelectorConstant_run. split; reflexivity.
Qed.

Lemma SelectorDIC_search_fails_at (self : ModelSelector) (n_components : Z) :
  min_n_components self <= n_components <= max_n_components self ->
  (forall acc, fails (SelectorDIC_body (dict_keys (words self)) n_components acc) self) ->
  fails SelectorDIC_search self.
Proof.
  intros Hn Hbody. unfold SelectorDIC_search.
  eapply bind_fails_r; [reflexivity|].
  apply bind_fails_l.
  apply (for_each_fails_in (fun s => s = self) n_components); auto.
  - intros x acc s Hs. subst s. apply stable_SelectorDIC_body.
  - intros acc s Hs. subst s. apply Hbody.
  - apply in_range. lia.
Qed.

(** X3: a candidate of the range whose fit fails is not skipped: its
    [None] model is scored, the [AttributeError] ends the search, and
    [SelectorDIC.select()] returns what [SelectorConstant.select()]
    returns, whatever the other candidates would have scored. *)
Theorem SelectorDIC_fit_failure_ends_search (self : ModelSelector) (n_components : Z) :
  min_n_components self <= n_components <= max_n_components self ->
  GaussianHMM_fit n_components (random_state self) (X self) (lengths self) = None ->
  fails SelectorDIC_search self /\
  value_of (SelectorDIC_select self) = value_of (SelectorConstant_select self) /\
  self_of (SelectorDIC_select self) = self.
Proof.
  intros Hn Hfit.
  assert (Hf : fails SelectorDIC_search self).
  { apply (SelectorDIC_search_fails_at self n_components Hn).
    intros [best_score best_model]. unfold SelectorDIC_body.
    eapply bind_fails_r; [apply base_model_run|]. rewrite Hfit.
    destruct (for_each (dict_keys (words self)) (SelectorDIC_word None) [] self)
      as [[[scores | e] s1] o1] eqn:Hloop.
    - eapply bind_fails_r; [exact Hloop|].
      eapply bind_fails_r; [reflexivity|].
      apply bind_fails_l. exists AttributeError. reflexivity.
    - apply bind_fails_l. exists e. rewrite Hloop. reflexivity. }
  split; [exact Hf|]. apply SelectorDIC_fallback_of_fails. exact Hf.
Qed.

(** X4: when a key of [self.words] other than [this_word] has no entry in
    [self.all_word_Xlengths], the lookup raises [KeyError] for the first
    candidate already, and [SelectorDIC.select()] returns what
    [SelectorConstant.select()] returns. *)
Theorem SelectorDIC_missing_view_ends_search (self : ModelSelector) (word : string) :
  min_n_components self <= max_n_components self ->
  In word (dict_keys (words self)) ->
  word <> this_word self ->
  dict_get (all_word_Xlengths self) word = None ->
  fails SelectorDIC_search self /\
  value_of (SelectorDIC_select self) = value_of (SelectorConstant_select self) /\
  self_of (SelectorDIC_select self) = self.
Proof.
  intros Hr Hin Hw Hget.
  assert (Hf : fails SelectorDIC_search self).
  { apply (SelectorDIC_search_fails_at self (min_n_components self)); [lia|].
    intros [best_score best_model]. unfold SelectorDIC_body.
    eapply bind_fails_r; [apply base_model_run|].
    apply bind_fails_l.
    apply (for_each_fails_in (fun s => s = self) word); auto.
    - intros x sc s Hs. subst s. apply stable_SelectorDIC_word.
    - intros sc s Hs. subst s. exists KeyError.
      apply String.eqb_neq in Hw.
      unfold SelectorDIC_word, bind, get_self, lift, getitem.
      rewrite Hw, Hget. reflexivity. }
  split; [exact Hf|]. apply SelectorDIC_fallback_of_fails. exact Hf.
Qed.

End DiscriminativeMore.

Lemma SelectorDIC_fit_failure_ends_search_witness :
  exists self,
    Example.construct Example.three_words 2 2 7 false = Ok self /\
    value_of (SelectorDIC_select (L := Example.toy) self) =
      value_of (SelectorConstant_select (L := Example.toy) self).
Proof.
  eexists. split; [reflexivity|].
  refine (proj1 (proj2 (SelectorDIC_fit_failure_ends_search (L := Example.toy) _ 7 _ _))).
  - simpl. lia.
  - reflexivity.
Defined.

Lemma SelectorDIC_missing_view_ends_search_witness :
  value_of (SelectorDIC_select (L := Example.toy)
              (mkSelector Example.three_words (Example.corpus Example.book3)
                 [Example.s1; Example.s2; Example.s3]
                 (Example.s1 ++ Example.s2 ++ Example.s3) [2; 2; 2]
                 "BOOK" 2 2 3 14 false (Example.corpus Example.book3))) =
  value_of (SelectorConstant_select (L := Example.toy)
              (mkSelector Example.three_words (Example.corpus Example.book3)
                 [Example.s1; Example.s2; Example.s3]
                 (Example.s1 ++ Example.s2 ++ Example.s3) [2; 2; 2]
                 "BOOK" 2 2 3 14 false (Example.corpus Example.book3))).
Proof.
  refine (proj1 (proj2 (SelectorDIC_missing_view_ends_search (L := Example.toy) _ "EAT" _ _ _ _))).
  - simpl. lia.
  - simpl. auto.
  - discriminate.
  - reflexivity.
Defined.

(** ** The order on floats *)

Lemma SFltb_trans (a b c : spec_float) :
  SFltb a b = true -> SFltb b c = true -> SFltb a c = true.
Proof.
  unfold SFltb.
  destruct a as [sa | sa | | sa ma ea], b as [sb | sb | | sb mb eb],
    c as [sc | sc | | sc mc ec]; simpl;
    try destruct sa; try destruct sb; try destruct sc; simpl;
    try discriminate; try reflexivity; intros H1 H2.
  all: fold (Pos.compare ma mb) in H1; fold (Pos.compare mb mc) in H2;
       fold (Pos.compare ma mc).
  all: destruct (Z.compare_spec ea eb), (Z.compare_spec eb ec); try discriminate;
       destruct (Z.compare_spec ea ec); try reflexivity; try lia; subst.
  all: destruct (Pos.compare_spec ma mb), (Pos.compare_spec mb mc);
       simpl in *; try discriminate;
       destruct (Pos.compare_spec ma mc); simpl; try reflexivity; try lia.
Qed.

Lemma SFltb_irrefl (a : spec_float) : SFltb a a = false.
Proof.
  unfold SFltb. destruct a as [s | s | | s m e]; simpl; try destruct s; try reflexivity.
  all: fold (Pos.compare m m); rewrite Z.compare_refl, Pos.compare_refl; reflexivity.
Qed.

Lemma float_gt_trans (a b c : float) :
  float_gt a b = true -> float_gt b c = true -> float_gt a c = true.
Proof.
  unfold float_gt. rewrite !ltb_spec. intros H1 H2.
  eapply SFltb_trans; eauto.
Qed.

Lemma float_gt_irrefl (a : float) : float_gt a a = false.
Proof. unfold float_gt. rewrite ltb_spec. apply SFltb_irrefl. Qed.

(** A score that is not greater than [b] is not greater than anything
    greater than [b]. *)
Lemma float_gt_not_above (x b b' : float) :
  float_gt x b = false -> float_gt b' b = true -> float_gt x b' = false.
Proof.
  intros Hx Hb. destruct (float_gt x b') eqn:H; [|reflexivity].
  rewrite (float_gt_trans x b' b H Hb) in Hx. discriminate.
Qed.

(** ** A loop that keeps the best candidate *)

Section KeepBest.

Context {L : HMMLib}.

(** [eval] computes a candidate's score and model, [body] is the loop body
    built on it, [Inv] holds of the selector objects the loop runs on and
    [P n score m] says what evaluating [n] gives. *)
Variable eval : Z -> M (float * option Model).
Variable body : Z -> float * option Model -> M (float * option Model).
Variable Inv : ModelSelector -> Prop.
Variable P : Z -> float -> option Model -> Prop.

Hypothesis body_eval : forall n best_score best_model s,
  body n (best_score, best_model) s =
    bind (eval n)
      (fun r => if float_gt (fst r) best_score then ret r
                else ret (best_score, best_model)) s.

Hypothesis eval_ok : forall n s r s1 o,
  Inv s -> eval n s = (Ok r, s1, o) -> Inv s1 /\ P n (fst r) (snd r).

Lemma keep_best_loop (candidates : list Z) :
  forall (acc acc' : float * option Model) (s s' : ModelSelector) (out : list msg),
  Inv s ->
  for_each candidates body acc s = (Ok acc', s', out) ->
  Inv s' /\
  (acc' = acc \/ exists n, In n candidates /\ P n (fst acc') (snd acc')) /\
  (fst acc' = fst acc \/ float_gt (fst acc') (fst acc) = true) /\
  (forall n, In n candidates ->
     exists score m, P n score m /\ float_gt score (fst acc') = false).
Proof.
  induction candidates as [|c rest IH]; intros acc acc' s s' out Hs H.
  - simpl in H. inversion H. subst. repeat split; auto. intros n [].
  - simpl in H. apply bind_ok_inv in H.
    destruct H as [acc1 [s1 [o1 [o2 [Hb [Hrest _]]]]]].
    destruct acc as [b bm]. rewrite body_eval in Hb.
    apply bind_ok_inv in Hb.
    destruct Hb as [r [s0 [o0 [o0' [He [Hcmp _]]]]]].
    destruct (eval_ok _ _ _ _ _ Hs He) as [Hs0 HP].
    assert (Hs01 : s1 = s0 /\
                   ((float_gt (fst r) b = true /\ acc1 = r) \/
                    (float_gt (fst r) b = false /\ acc1 = (b, bm)))).
    { destruct (float_gt (fst r) b); inversion Hcmp; subst; auto. }
    destruct Hs01 as [Heq Hacc1]. subst s1.
    destruct (IH _ _ _ _ _ Hs0 Hrest) as [Hs' [Hsel [Hup Hmax]]].
    simpl fst in *.
    split; [exact Hs'|].
    assert (Hup1 : fst acc1 = b \/ float_gt (fst acc1) b = true).
    { destruct Hacc1 as [[Hg Ha] | [Hg Ha]]; subst acc1; auto. }
    assert (Hup' : fst acc' = b \/ float_gt (fst acc') b = true).
    { destruct Hup as [Hup | Hup]; [rewrite Hup; exact Hup1|].
      destruct Hup1 as [Hup1 | Hup1]; [rewrite <- Hup1; auto|].
      right. eapply float_gt_trans; eauto. }
    split; [|split; [exact Hup'|]].
    + destruct Hsel as [Hsel | [n [Hin Hn]]].
      * subst acc'. destruct Hacc1 as [[Hg Ha] | [Hg Ha]]; subst acc1; auto.
        right. exists c. split; [left; reflexivity | exact HP].
      * right. exists n. split; [right; exact Hin | exact Hn].
    + intros n [Hn | Hin]; [|apply Hmax; exact Hin].
      subst n. exists (fst r), (snd r). split; [exact HP|].
      destruct Hacc1 as [[Hg Ha] | [Hg Ha]]; subst acc1.
      * destruct Hup as [Hup | Hup].
        -- rewrite Hup. apply float_gt_irrefl.
        -- destruct (float_gt (fst r) (fst acc')) eqn:Hc; [|reflexivity].
           pose proof (float_gt_trans _ _ _ Hc Hup) as Hbad.
           rewrite float_gt_irrefl in Hbad. discriminate.
      * simpl in Hup. destruct Hup as [Hup | Hup].
        -- rewrite Hup. exact Hg.
        -- eapply float_gt_not_above; eauto.
Qed.

End KeepBest.

(** ** What the discriminative selector returns *)

Section DiscriminativeBest.

Context {L : HMMLib}.

Lemma SelectorDIC_body_eval (list_of_words : list string) (n_components : Z)
    (best_score : float) (best_model : option Model) (s : ModelSelector) :
  SelectorDIC_body list_of_words n_components (best_score, best_model) s =
    bind (SelectorDIC_eval list_of_words n_components)
      (fun r => if float_gt (fst r) best_score then ret r
                else ret (best_score, best_model)) s.
Proof.
  unfold SelectorDIC_body, SelectorDIC_eval, bind.
  rewrite base_model_run.
  destruct (for_each list_of_words _ [] s) as [[[scores | e] s1] o1]; [|reflexivity].
  unfold get_self.
  destruct (score_method _ (X s1) (lengths s1) s1) as [[[own | e] s2] o2]; [|reflexivity].
  unfold ret. cbn [fst].
  destruct (float_gt (own - np_mean scores) best_score); simpl;
    repeat rewrite app_nil_r; repeat rewrite <- app_assoc; reflexivity.
Qed.

Lemma stable_SelectorDIC_eval (list_of_words : list string) (n_components : Z) :
  stable (SelectorDIC_eval list_of_words n_components).
Proof.
  unfold SelectorDIC_eval.
  apply stable_bind; [apply stable_base_model|]. intros hmm_model.
  apply stable_bind.
  { apply stable_for_each. intros. apply stable_SelectorDIC_word. }
  intros scores.
  apply stable_bind; [apply stable_get_self|]. intros self.
  apply stable_bind; [apply stable_score_method|]. intros own.
  apply stable_ret.
Qed.

(** A candidate that evaluates has a model, the fit on the word's view. *)
Lemma SelectorDIC_eval_model (list_of_words : list string) (n_components : Z)
    (s s1 : ModelSelector) (r : float * option Model) (o : list msg) :
  SelectorDIC_eval list_of_words n_components s = (Ok r, s1, o) ->
  exists m,
    snd r = Some m /\
    GaussianHMM_fit n_components (random_state s) (X s) (lengths s) = Some m.
Proof.
  unfold SelectorDIC_eval. intros H.
  apply bind_ok_inv in H. destruct H as [hm [s0 [o0 [o0' [Hb [H _]]]]]].
  rewrite base_model_run in Hb. inversion Hb. subst hm s0 o0. clear Hb.
  apply bind_ok_inv in H. destruct H as [scores [s2 [o2 [o2' [_ [H _]]]]]].
  apply bind_ok_inv in H. destruct H as [self0 [s3 [o3 [o3' [Hg [H _]]]]]].
  inversion Hg. subst self0 s3 o3. clear Hg.
  apply bind_ok_inv in H. destruct H as [own [s4 [o4 [o4' [Hsc [H _]]]]]].
  inversion H. subst r. simpl.
  destruct (GaussianHMM_fit n_components (random_state s) (X s) (lengths s)) as [m|].
  - eauto.
  - discriminate.
Qed.

(** A search that completes with a model: the candidate it comes from. *)
Lemma SelectorDIC_search_best (self self' : ModelSelector) (m : Model)
    (out : list msg) :
  SelectorDIC_search self = (Ok (Some m), self', out) ->
  exists n score,
    min_n_components self <= n <= max_n_components self /\
    GaussianHMM_fit n (random_state self) (X self) (lengths self) = Some m /\
    value_of (SelectorDIC_eval (dict_keys (words self)) n self) = Ok (score, Some m) /\
    forall n', min_n_components self <= n' <= max_n_components self ->
      exists score' m',
        value_of (SelectorDIC_eval (dict_keys (words self)) n' self) = Ok (score', m') /\
        float_gt score' score = false.
Proof.
  intros Hs.
  unfold SelectorDIC_search in Hs.
  apply bind_ok_inv in Hs. destruct Hs as [self0 [s0 [o0 [o0' [Hg [H _]]]]]].
  inversion Hg. subst self0 s0 o0. clear Hg.
  apply bind_ok_inv in H.
  destruct H as [[best_score best_model] [s1 [o1 [o2 [Hloop [H _]]]]]].
  inversion H. subst best_model s1. clear H.
  apply (keep_best_loop
           (SelectorDIC_eval (dict_keys (words self)))
           (SelectorDIC_body (dict_keys (words self)))
           (fun s => s = self)
           (fun n score hm =>
              value_of (SelectorDIC_eval (dict_keys (words self)) n self) = Ok (score, hm)))
    in Hloop.
  - destruct Hloop as [_ [Hsel [_ Hmax]]]. simpl in Hsel.
    destruct Hsel as [Hsel | [n [Hin Hn]]]; [discriminate|].
    apply in_range in Hin.
    exists n, best_score. split; [lia|].
    destruct (SelectorDIC_eval (dict_keys (words self)) n self)
      as [[r s1] o1'] eqn:He.
    unfold value_of in Hn. simpl in Hn. subst r.
    destruct (SelectorDIC_eval_model _ _ _ _ _ _ He) as [m0 [Hm0 Hfit]].
    simpl in Hm0. inversion Hm0. subst m0.
    split; [exact Hfit|]. split; [reflexivity|].
    intros n' Hn'. apply Hmax. apply in_range. lia.
  - apply SelectorDIC_body_eval.
  - intros n s r s1 o Hs He. subst s.
    pose proof (stable_SelectorDIC_eval (dict_keys (words self)) n self) as Hst.
    rewrite He in Hst. unfold self_of in Hst. simpl in Hst.
    split; [exact Hst|].
    rewrite He. destruct r. reflexivity.
  - reflexivity.
Qed.

(** X5: when the search of [SelectorDIC.select()] completes with a model,
    every candidate of the range was fitted and scored, and the model
    returned is the fit on the word's view of a candidate whose score
    [own - mean(others)] no candidate's score is greater than. *)
Theorem SelectorDIC_returns_best (self self' : ModelSelector) (m : Model)
    (out : list msg) :
  SelectorDIC_search self = (Ok (Some m), self', out) ->
  SelectorDIC_select self = (Ok (Some m), self, out) /\
  (exists n score,
     min_n_components self <= n <= max_n_components self /\
     GaussianHMM_fit n (random_state self) (X self) (lengths self) = Some m /\
     value_of (SelectorDIC_eval (dict_keys (words self)) n self) = Ok (score, Some m) /\
     forall n', min_n_components self <= n' <= max_n_components self ->
       exists score' m',
         value_of (SelectorDIC_eval (dict_keys (words self)) n' self) = Ok (score', m') /\
         float_gt score' score = false).
Proof.
  intros Hs. split.
  - pose proof (stable_SelectorDIC_search self) as Hst.
    rewrite Hs in Hst. unfold self_of in Hst. simpl in Hst. subst self'.
    unfold SelectorDIC_select. apply try_fallback_ok. exact Hs.
  - eapply SelectorDIC_search_best. exact Hs.
Qed.

(** X6: a model that [SelectorDIC.select()] returns was fitted on the
    word's whole view, with a state count of the range or with
    [n_constant]. *)
Theorem SelectorDIC_model_on_whole_view (self : ModelSelector) (m : Model) :
  value_of (SelectorDIC_select self) = Ok (Some m) ->
  exists n,
    (min_n_components self <= n <= max_n_components self \/ n = n_constant self) /\
    GaussianHMM_fit n (random_state self) (X self) (lengths self) = Some m.
Proof.
  intros Hv.
  destruct (SelectorDIC_search self) as [[[v | e] s1] o1] eqn:Hs.
  - unfold SelectorDIC_select in Hv.
    rewrite (try_fallback_ok _ _ _ _ _ Hs) in Hv.
    unfold value_of in Hv. simpl in Hv. inversion Hv. subst v.
    destruct (SelectorDIC_search_best self s1 m o1 Hs) as [n [score [Hn [Hfit _]]]].
    exists n. split; [left; exact Hn | exact Hfit].
  - assert (Hf : fails SelectorDIC_search self).
    { exists e. rewrite Hs. reflexivity. }
    destruct (SelectorDIC_fallback_of_fails self Hf) as [Hc _].
    rewrite Hc, SelectorConstant_run in Hv.
    unfold value_of in Hv. simpl in Hv.
    exists (n_constant self). split; [right; reflexivity | congruence].
Qed.

End DiscriminativeBest.

Lemma SelectorDIC_returns_best_witness :
  exists self n score,
    Example.construct Example.three_words 1 1 1 false = Ok self /\
    min_n_components self <= n <= max_n_components self /\
    @GaussianHMM_fit Example.toy n (random_state self) (X self) (lengths self) =
      Some (Example.mkToy 1 (X self) (lengths self)) /\
    value_of (SelectorDIC_eval (L := Example.toy) (dict_keys (words self)) n self) =
      Ok (score, Some (Example.mkToy 1 (X self) (lengths self))).
Proof.
  eexists.
  destruct (SelectorDIC_returns_best (L := Example.toy)
              (mkSelector Example.three_words (Example.corpus Example.three_words)
                 [Example.s1; Example.s2; Example.s3]
                 (Example.s1 ++ Example.s2 ++ Example.s3) [2; 2; 2]
                 "BOOK" 1 1 1 14 false (Example.corpus Example.three_words))
              _ (Example.mkToy 1 (Example.s1 ++ Example.s2 ++ Example.s3) [2; 2; 2])
              [] eq_refl)
    as [_ [n [score [H1 [H2 [H3 _]]]]]].
  exists n, score. split; [reflexivity|]. repeat split; try assumption; apply H1.
Defined.

Lemma SelectorDIC_model_on_whole_view_witness :
  exists self n,
    Example.construct Example.three_words 1 2 3 false = Ok self /\
    (min_n_components self <= n <= max_n_components self \/ n = n_constant self) /\
    @GaussianHMM_fit Example.toy n (random_state self) (X self) (lengths self) =
      Some (Example.mkToy 1 (X self) (lengths self)).
Proof.
  eexists.
  destruct (SelectorDIC_model_on_whole_view (L := Example.toy)
              (mkSelector Example.three_words (Example.corpus Example.three_words)
                 [Example.s1; Example.s2; Example.s3]
                 (Example.s1 ++ Example.s2 ++ Example.s3) [2; 2; 2]
                 "BOOK" 1 2 3 14 false (Example.corpus Example.three_words))
              (Example.mkToy 1 (Example.s1 ++ Example.s2 ++ Example.s3) [2; 2; 2])
              eq_refl)
    as [n [H1 H2]].
  exists n. split; [reflexivity|]. split; assumption.
Defined.

(** ** What the cross-validated selector returns *)

Section CrossValidatedBest.

Context {L : HMMLib}.

Lemma SelectorCV_body_eval (n_components : Z) (best_score : float)
    (best_model : option Model) (s : ModelSelector) :
  SelectorCV_body n_components (best_score, best_model) s =
    bind (SelectorCV_eval n_components)
      (fun r => if float_gt (fst r) best_score then ret r
                else ret (best_score, best_model)) s.
Proof.
  unfold SelectorCV_body, SelectorCV_eval, bind, get_self, lift.
  destruct (SelectorCV_folds (sequences s)) as [folds | e]; [|reflexivity].
  destruct (for_each folds (SelectorCV_fold n_components) ([], None) s)
    as [[[[logL_arr hmm_model] | e] s1] o1]; [|reflexivity].
  unfold ret. cbn [fst].
  destruct (float_gt (np_mean logL_arr) best_score); simpl;
    repeat rewrite app_nil_r; reflexivity.
Qed.

Lemma config_stable_SelectorCV_eval (n_components : Z) :
  config_stable (SelectorCV_eval n_components).
Proof.
  unfold SelectorCV_eval.
  apply config_stable_bind; [apply config_stable_of_stable, stable_get_self|].
  intros self.
  apply config_stable_bind; [apply config_stable_of_stable, stable_lift|].
  intros folds.
  apply config_stable_bind.
  { apply config_stable_for_each. intros. apply config_stable_SelectorCV_fold. }
  intros [logL_arr hmm_model]. apply config_stable_of_stable, stable_ret.
Qed.

(** The evaluation of a candidate does not depend on what [X] and
    [lengths] hold when it starts. *)
Lemma SelectorCV_eval_assign (n_components : Z) (s : ModelSelector)
    (d : matrix * list Z) (folds : list (list nat * list nat)) :
  SelectorCV_folds (sequences s) = Ok folds ->
  SelectorCV_eval n_components (assign_Xlengths s d) = SelectorCV_eval n_components s.
Proof.
  intros Hfolds.
  destruct (SelectorCV_folds_first _ _ Hfolds) as [tr [te [rest [d0 [Hcons Hd0]]]]].
  unfold SelectorCV_eval.
  unfold bind at 1 4. unfold get_self.
  unfold bind at 1 3. unfold lift. simpl sequences. rewrite Hfolds, Hcons.
  rewrite (bind_congr _ _ (assign_Xlengths s d) s); [reflexivity|].
  cbn [for_each]. apply bind_congr. eapply SelectorCV_fold_assign. exact Hd0.
Qed.

Lemma SelectorCV_eval_same_config (n_components : Z) (self s s1 : ModelSelector)
    (r : float * option Model) (o : list msg) :
  same_config self s ->
  SelectorCV_eval n_components s = (Ok r, s1, o) ->
  same_config self s1 /\ value_of (SelectorCV_eval n_components self) = Ok r.
Proof.
  intros Hs He. split.
  - eapply same_config_trans; [exact Hs|].
    pose proof (config_stable_SelectorCV_eval n_components s) as Hc.
    rewrite He in Hc. exact Hc.
  - destruct (same_config_fields _ _ Hs) as [Hseq _].
    destruct (SelectorCV_folds (sequences self)) as [folds | e] eqn:Hfolds.
    + unfold same_config in Hs. rewrite Hs in He.
      rewrite (SelectorCV_eval_assign _ _ _ _ Hfolds) in He.
      rewrite He. reflexivity.
    + exfalso. unfold SelectorCV_eval, bind, get_self, lift in He.
      rewrite Hseq, Hfolds in He. discriminate.
Qed.

(** X7: when the search of [SelectorCV.select()] completes with a model,
    every candidate of the range was evaluated on every fold, and the
    model returned belongs to a candidate whose mean held-out
    log-likelihood no candidate's mean is greater than. *)
Theorem SelectorCV_returns_best (self self' : ModelSelector) (m : Model)
    (out : list msg) :
  SelectorCV_search self = (Ok (Some m), self', out) ->
  SelectorCV_select self = (Ok (Some m), self', out) /\
  (exists n avg_score,
     min_n_components self <= n <= max_n_components self /\
     value_of (SelectorCV_eval n self) = Ok (avg_score, Some m) /\
     forall n', min_n_components self <= n' <= max_n_components self ->
       exists avg_score' m',
         value_of (SelectorCV_eval n' self) = Ok (avg_score', m') /\
         float_gt avg_score' avg_score = false).
Proof.
  intros Hs. split.
  { unfold SelectorCV_select. apply try_fallback_ok. exact Hs. }
  unfold SelectorCV_search in Hs.
  apply bind_ok_inv in Hs. destruct Hs as [self0 [s0 [o0 [o0' [Hg [H _]]]]]].
  inversion Hg. subst self0 s0 o0. clear Hg.
  apply bind_ok_inv in H.
  destruct H as [[best_score best_model] [s1 [o1 [o2 [Hloop [H _]]]]]].
  inversion H. subst best_model s1. clear H.
  apply (keep_best_loop SelectorCV_eval SelectorCV_body (same_config self)
           (fun n score hm => value_of (SelectorCV_eval n self) = Ok (score, hm)))
    in Hloop.
  - destruct Hloop as [_ [Hsel [_ Hmax]]]. simpl in Hsel.
    destruct Hsel as [Hsel | [n [Hin Hn]]]; [discriminate|].
    apply in_range in Hin.
    exists n, best_score. split; [lia|]. split; [exact Hn|].
    intros n' Hn'. apply Hmax. apply in_range. lia.
  - apply SelectorCV_body_eval.
  - intros n s r s1 o Hs He.
    destruct (SelectorCV_eval_same_config _ _ _ _ _ _ Hs He) as [H1 H2].
    split; [exact H1|]. rewrite H2. destruct r. reflexivity.
  - apply same_config_refl.
Qed.

End CrossValidatedBest.

Lemma SelectorCV_returns_best_witness :
  exists self n avg_score,
    Example.construct Example.book3 3 1 2 false = Ok self /\
    min_n_components self <= n <= max_n_components self /\
    value_of (SelectorCV_eval (L := Example.toy) n self) =
      Ok (avg_score, Some (Example.mkToy 1 (Example.s1 ++ Example.s2) [2; 2])).
Proof.
  eexists.
  destruct (SelectorCV_returns_best (L := Example.toy)
              (mkSelector Example.book3 (Example.corpus Example.book3)
                 [Example.s1; Example.s2; Example.s3]
                 (Example.s1 ++ Example.s2 ++ Example.s3) [2; 2; 2]
                 "BOOK" 3 1 2 14 false (Example.corpus Example.book3))
              _ (Example.mkToy 1 (Example.s1 ++ Example.s2) [2; 2]) [] eq_refl)
    as [_ [n [avg_score [H1 [H2 _]]]]].
  exists n, avg_score. split; [reflexivity|]. split; [exact H1 | exact H2].
Defined.

(** ** Printing *)

Section Quiet.

Context {L : HMMLib}.

Lemma quiet_ret {A : Type} (a : A) : quiet (ret a).
Proof. intros s Hv. split; [reflexivity | exact Hv]. Qed.

Lemma quiet_lift {A : Type} (r : result A) : quiet (lift r).
Proof. intros s Hv. split; [reflexivity | exact Hv]. Qed.

Lemma quiet_get_self : quiet get_self.
Proof. intros s Hv. split; [reflexivity | exact Hv]. Qed.

Lemma quiet_set_Xlengths (d : matrix * list Z) : quiet (set_Xlengths d).
Proof. intros s Hv. split; [reflexivity | exact Hv]. Qed.

Lemma quiet_bind {A B : Type} (c : M A) (k : A -> M B) :
  quiet c -> (forall a, quiet (k a)) -> quiet (bind c k).
Proof.
  intros Hc Hk s Hv. unfold bind. specialize (Hc s Hv).
  destruct (c s) as [[[a | e] s1] o1]; unfold output_of, self_of in *; simpl in *;
    destruct Hc as [Ho Hv1]; subst o1.
  - specialize (Hk a s1 Hv1). destruct (k a s1) as [[r s2] o2]. exact Hk.
  - auto.
Qed.

Lemma quiet_for_each {A S : Type} (xs : list A) (body : A -> S -> M S) :
  (forall x acc, quiet (body x acc)) -> forall acc, quiet (for_each xs body acc).
Proof.
  intros Hb. induction xs as [|x xs IH]; intros acc; simpl.
  - apply quiet_ret.
  - apply quiet_bind; auto.
Qed.

Lemma quiet_try {A : Type} (body handler : M A) :
  quiet body -> quiet handler -> quiet (try_except body handler).
Proof.
  intros Hb Hh s Hv. unfold try_except. specialize (Hb s Hv).
  destruct (body s) as [[[a | e] s1] o1]; unfold output_of, self_of in *; simpl in *;
    destruct Hb as [Ho Hv1]; subst o1.
  - auto.
  - specialize (Hh s1 Hv1). destruct (handler s1) as [[r s2] o2]. exact Hh.
Qed.

Lemma quiet_base_model (num_states : Z) : quiet (base_model num_states).
Proof.
  intros s Hv. rewrite base_model_run. unfold output_of, self_of. simpl.
  unfold base_model_prints. rewrite Hv. auto.
Qed.

Lemma quiet_score_method (hmm_model : option Model) (X0 : matrix) (lengths0 : list Z) :
  quiet (score_method hmm_model X0 lengths0).
Proof.
  intros s Hv. unfold score_method.
  destruct hmm_model as [m|]; [destruct (Model_score m X0 lengths0)|];
    split; (reflexivity || exact Hv).
Qed.

Lemma quiet_fallback : quiet (self0 <- get_self ;; base_model (n_constant self0)).
Proof. apply quiet_bind; [apply quiet_get_self|]. intros s. apply quiet_base_model. Qed.

Lemma quiet_SelectorBIC_select : quiet SelectorBIC_select.
Proof.
  apply quiet_try; [|apply quiet_fallback].
  unfold SelectorBIC_search.
  apply quiet_bind; [apply quiet_get_self|]. intros self.
  apply quiet_bind.
  - apply quiet_for_each. intros n acc s Hv. rewrite SelectorBIC_body_raises.
    unfold output_of, self_of. simpl. unfold base_model_prints. rewrite Hv. auto.
  - intros [best_score best_model]. apply quiet_ret.
Qed.

Lemma quiet_SelectorDIC_select : quiet SelectorDIC_select.
Proof.
  apply quiet_try; [|apply quiet_fallback].
  unfold SelectorDIC_search.
  apply quiet_bind; [apply quiet_get_self|]. intros self.
  apply quiet_bind.
  - apply quiet_for_each. intros n [best_score best_model]. unfold SelectorDIC_body.
    apply quiet_bind; [apply quiet_base_model|]. intros hmm_model.
    apply quiet_bind.
    { apply quiet_for_each. intros word scores. unfold SelectorDIC_word.
      apply quiet_bind; [apply quiet_get_self|]. intros self0.
      destruct (negb (String.eqb word (this_word self0))); [|apply quiet_ret].
      apply quiet_bind; [apply quiet_lift|]. intros [word_X word_lengths].
      apply quiet_bind; [apply quiet_score_method|]. intros sc. apply quiet_ret. }
    intros scores.
    apply quiet_bind; [apply quiet_get_self|]. intros self0.
    apply quiet_bind; [apply quiet_score_method|]. intros own.
    destruct (float_gt _ _); apply quiet_ret.
  - intros [best_score best_model]. apply quiet_ret.
Qed.

Lemma quiet_SelectorCV_select : quiet SelectorCV_select.
Proof.
  apply quiet_try; [|apply quiet_fallback].
  unfold SelectorCV_search.
  apply quiet_bind; [apply quiet_get_self|]. intros self.
  apply quiet_bind.
  - apply quiet_for_each. intros n [best_score best_model]. unfold SelectorCV_body.
    apply quiet_bind; [apply quiet_get_self|]. intros self0.
    apply quiet_bind; [apply quiet_lift|]. intros folds.
    apply quiet_bind.
    { apply quiet_for_each. intros [tr te] [logL_arr hm0]. unfold SelectorCV_fold.
      apply quiet_bind; [apply quiet_get_self|]. intros self1.
      apply quiet_bind; [apply quiet_lift|]. intros train.
      apply quiet_bind; [apply quiet_set_Xlengths|]. intros _.
      apply quiet_bind; [apply quiet_base_model|]. intros hmm_model.
      apply quiet_bind; [apply quiet_lift|]. intros [X_test test_lengths].
      apply quiet_bind; [apply quiet_score_method|]. intros logL. apply quiet_ret. }
    intros [logL_arr hmm_model].
    destruct (float_gt _ _); apply quiet_ret.
  - intros [best_score best_model]. apply quiet_ret.
Qed.

End Quiet.

(** X8: with [verbose] off no strategy prints anything, however many
    candidates and folds it fits, on the path where the search completes
    and on the fallback path alike. *)
Theorem select_prints {L : HMMLib} (strategy : Strategy) (self : ModelSelector) :
  verbose self = false -> output_of (select strategy self) = [].
Proof.
  intros Hv. destruct strategy; simpl.
  - rewrite SelectorConstant_run. unfold output_of. simpl.
    unfold base_model_prints. rewrite Hv. reflexivity.
  - apply quiet_SelectorBIC_select. exact Hv.
  - apply quiet_SelectorDIC_select. exact Hv.
  - apply quiet_SelectorCV_select. exact Hv.
Qed.

Lemma select_prints_witness :
  exists self,
    Example.construct Example.three_words 1 2 3 false = Ok self /\
    output_of (select (L := Example.toy) CV self) = [].
Proof.
  eexists. split; [reflexivity|].
  apply (select_prints (L := Example.toy) CV). reflexivity.
Defined.

(** ** The folds, and the view the cross-validated selector leaves *)

Lemma SelectorCV_folds_in (seqs : list sequence) (folds : list (list nat * list nat))
    (cv_train_idx cv_test_idx : list nat) :
  SelectorCV_folds seqs = Ok folds ->
  In (cv_train_idx, cv_test_idx) folds ->
  cv_train_idx =
    filter (fun i => negb (existsb (Nat.eqb i) cv_test_idx)) (seq 0 (List.length seqs)) /\
  (forall i, In i cv_test_idx -> (i < List.length seqs)%nat) /\
  cv_test_idx <> [].
Proof.
  rewrite SelectorCV_folds_eq. unfold len.
  destruct (Z.of_nat (List.length seqs) <=? 1) eqn:Hle; [discriminate|].
  apply Z.leb_gt in Hle. intros Heq Hin.
  assert (Hf : folds = kfold_from 0
                 (fold_sizes (Nat.min 3 (List.length seqs)) (List.length seqs))
                 (List.length seqs)) by congruence.
  clear Heq. subst folds.
  assert (Hk : (0 < Nat.min 3 (List.length seqs))%nat) by lia.
  split; [eapply kfold_from_train; exact Hin|].
  pose proof (kfold_from_tests
                (fold_sizes (Nat.min 3 (List.length seqs)) (List.length seqs))
                0 (List.length seqs)) as Htests.
  rewrite fold_sizes_sum in Htests by exact Hk.
  split.
  - intros i Hi.
    assert (Hc : In i (seq 0 (List.length seqs))).
    { rewrite <- Htests. apply in_concat. exists cv_test_idx. split; [|exact Hi].
      apply in_map_iff. exists (cv_train_idx, cv_test_idx). split; [reflexivity|exact Hin]. }
    apply in_seq in Hc. lia.
  - assert (Hpos : Forall (fun size => (0 < size)%nat)
                     (fold_sizes (Nat.min 3 (List.length seqs)) (List.length seqs))).
    { unfold fold_sizes. apply Forall_app.
      assert (Hq : (0 < List.length seqs / Nat.min 3 (List.length seqs))%nat).
      { apply Nat.div_str_pos. lia. }
      split; apply Forall_forall; intros x Hx; apply repeat_spec in Hx; lia. }
    assert (Hgen : forall sizes current,
              Forall (fun size => (0 < size)%nat) sizes ->
              In (cv_train_idx, cv_test_idx)
                (kfold_from current sizes (List.length seqs)) ->
              cv_test_idx <> []).
    { induction sizes as [|size rest IH]; intros current Hp Hi; [destruct Hi|].
      inversion Hp as [|? ? Hsz Hrest]. subst.
      simpl in Hi. destruct Hi as [Heq | Hi].
      - inversion Heq. destruct size; [lia | discriminate].
      - eapply IH; eauto. }
    eapply Hgen; eauto.
Qed.

(** X9: in every fold that [SelectorCV] evaluates, the held-out indices
    are valid and not empty, no index is both trained on and held out, and
    every sequence index is in exactly one of the two lists. *)
Theorem SelectorCV_folds_split (seqs : list sequence)
    (folds : list (list nat * list nat)) (cv_train_idx cv_test_idx : list nat) :
  SelectorCV_folds seqs = Ok folds ->
  In (cv_train_idx, cv_test_idx) folds ->
  cv_test_idx <> [] /\
  (forall i, In i cv_train_idx -> ~ In i cv_test_idx) /\
  (forall i, (i < List.length seqs)%nat <-> In i cv_train_idx \/ In i cv_test_idx).
Proof.
  intros Hfolds Hin.
  destruct (SelectorCV_folds_in _ _ _ _ Hfolds Hin) as [Htr [Hte Hne]].
  assert (Hmem : forall i, In i cv_test_idx <-> existsb (Nat.eqb i) cv_test_idx = true).
  { intros i. rewrite existsb_exists. split.
    - intros Hi. exists i. split; [exact Hi | apply Nat.eqb_refl].
    - intros [j [Hj Hij]]. apply Nat.eqb_eq in Hij. subst j. exact Hj. }
  split; [exact Hne|]. split.
  - intros i Hi Hi'. rewrite Htr in Hi. apply filter_In in Hi.
    destruct Hi as [_ Hneg]. apply Hmem in Hi'. rewrite Hi' in Hneg. discriminate.
  - intros i. split.
    + intros Hlt. destruct (existsb (Nat.eqb i) cv_test_idx) eqn:He.
      * right. apply Hmem. exact He.
      * left. rewrite Htr. apply filter_In. split; [apply in_seq; lia|].
        rewrite He. reflexivity.
    + intros [Hi | Hi]; [|apply Hte; exact Hi].
      rewrite Htr in Hi. apply filter_In in Hi. destruct Hi as [Hi _].
      apply in_seq in Hi. lia.
Qed.

Lemma SelectorCV_folds_split_witness :
  [0%nat] <> [] /\
  (forall i, In i [1; 2]%nat -> ~ In i [0%nat]) /\
  (forall i, (i < List.length [Example.s1; Example.s2; Example.s3])%nat <->
             In i [1; 2]%nat \/ In i [0%nat]).
Proof.
  apply (SelectorCV_folds_split [Example.s1; Example.s2; Example.s3]
           [([1; 2], [0]); ([0; 2], [1]); ([0; 1], [2])]%nat).
  - reflexivity.
  - left. reflexivity.
Defined.

Section FoldView.

Context {L : HMMLib}.

(** Every fold's training view can be built. *)
Lemma SelectorCV_folds_train_ok (seqs : list sequence)
    (folds : list (list nat * list nat)) (cv_train_idx cv_test_idx : list nat) :
  SelectorCV_folds seqs = Ok folds ->
  In (cv_train_idx, cv_test_idx) folds ->
  exists d, combine_sequences cv_train_idx seqs = Ok d.
Proof.
  intros Hfolds Hin.
  destruct (SelectorCV_folds_in _ _ _ _ Hfolds Hin) as [Htr _].
  apply combine_sequences_ok. rewrite Htr.
  apply Forall_forall. intros i Hi. apply filter_In in Hi.
  destruct Hi as [Hi _]. apply in_seq in Hi. lia.
Qed.

Lemma self_of_bind {A B : Type} (c : M A) (k : A -> M B) (s : ModelSelector) :
  self_of (bind c k s) =
    match c s with
    | (Ok a, s1, _) => self_of (k a s1)
    | (Raise _, s1, _) => s1
    end.
Proof.
  unfold bind. destruct (c s) as [[[a | e] s1] o1]; [|reflexivity].
  destruct (k a s1) as [[r s2] o2]. reflexivity.
Qed.

(** Whether a fold goes through or raises, its training view stays on the
    selector object. *)
Lemma SelectorCV_fold_self (n_components : Z) (cv_train_idx cv_test_idx : list nat)
    (acc : list float * option Model) (s : ModelSelector) (d : matrix * list Z) :
  combine_sequences cv_train_idx (sequences s) = Ok d ->
  self_of (SelectorCV_fold n_components (cv_train_idx, cv_test_idx) acc s) =
    assign_Xlengths s d.
Proof.
  intros Hd. unfold SelectorCV_fold. destruct acc as [logL_arr hm0].
  rewrite self_of_bind. unfold get_self at 1.
  rewrite self_of_bind. unfold lift at 1. rewrite Hd.
  rewrite self_of_bind. unfold set_Xlengths at 1.
  apply stable_bind; [apply stable_base_model|]. intros hmm_model.
  apply stable_bind; [apply stable_lift|]. intros [X_test test_lengths].
  apply stable_bind; [apply stable_score_method|]. intros logL. apply stable_ret.
Qed.

(** A loop whose every iteration establishes [Post], from any selector
    object satisfying [Pre], ends with [Post] if it runs at all. *)
Lemma for_each_establishes {A S : Type} (Pre Post : ModelSelector -> Prop)
    (xs : list A) (body : A -> S -> M S) :
  (forall x acc s, In x xs -> Pre s -> Post (self_of (body x acc s))) ->
  (forall s, Post s -> Pre s) ->
  xs <> [] ->
  forall acc s, Pre s -> Post (self_of (for_each xs body acc s)).
Proof.
  intros Hbody Hweak. induction xs as [|x rest IH]; intros Hne acc s Hs; [congruence|].
  simpl. unfold bind.
  pose proof (Hbody x acc s (or_introl eq_refl) Hs) as Hx.
  destruct (body x acc s) as [[[acc1 | e] s1] o1]; unfold self_of in Hx; simpl in Hx.
  - destruct rest as [|y rest'].
    + simpl. exact Hx.
    + assert (Hr : Post (self_of (for_each (y :: rest') body acc1 s1))).
      { apply IH.
        - intros x' acc' s' Hin Hs'. apply Hbody; [right; exact Hin | exact Hs'].
        - discriminate.
        - apply Hweak. exact Hx. }
      destruct (for_each (y :: rest') body acc1 s1) as [[r s2] o2]. exact Hr.
  - exact Hx.
Qed.

Lemma SelectorCV_body_self (n_components : Z) (acc : float * option Model)
    (s : ModelSelector) (folds : list (list nat * list nat)) :
  SelectorCV_folds (sequences s) = Ok folds ->
  self_of (SelectorCV_body n_components acc s) =
    self_of (for_each folds (SelectorCV_fold n_components) ([], None) s).
Proof.
  intros Hfolds. unfold SelectorCV_body. destruct acc as [best_score best_model].
  unfold bind, get_self, lift. rewrite Hfolds.
  destruct (for_each folds (SelectorCV_fold n_components) ([], None) s)
    as [[[[logL_arr hmm_model] | e] s1] o1]; [|reflexivity].
  destruct (float_gt (np_mean logL_arr) best_score); reflexivity.
Qed.

(** X10: for a word with at least two sequences and a non-empty range,
    what [SelectorCV.select()] leaves in [self.X] and [self.lengths] is
    the training view of one of the folds, whether the search completed or
    fell back. *)
Theorem SelectorCV_leaves_fold_view (self : ModelSelector)
    (folds : list (list nat * list nat)) :
  min_n_components self <= max_n_components self ->
  SelectorCV_folds (sequences self) = Ok folds ->
  exists cv_train_idx cv_test_idx,
    In (cv_train_idx, cv_test_idx) folds /\
    combine_sequences cv_train_idx (sequences self) =
      Ok (X (self_of (SelectorCV_select self)),
          lengths (self_of (SelectorCV_select self))).
Proof.
  intros Hr Hfolds.
  set (Post := fun s : ModelSelector =>
         same_config self s /\
         exists tr te, In (tr, te) folds /\
           combine_sequences tr (sequences self) = Ok (X s, lengths s)).
  assert (Hfold : forall n fold acc s, In fold folds -> same_config self s ->
            Post (self_of (SelectorCV_fold n fold acc s))).
  { intros n [tr te] acc s Hin Hs.
    destruct (same_config_fields _ _ Hs) as [Hseq _].
    destruct (SelectorCV_folds_train_ok _ _ _ _ Hfolds Hin) as [d Hd].
    rewrite (SelectorCV_fold_self n tr te acc s d) by (rewrite Hseq; exact Hd).
    split.
    - eapply same_config_trans; [exact Hs | apply same_config_assign].
    - exists tr, te. split; [exact Hin|]. rewrite Hd. destruct d. reflexivity. }
  assert (Hne : folds <> []).
  { destruct (SelectorCV_folds_first _ _ Hfolds) as [tr [te [rest [d [Hc _]]]]].
    rewrite Hc. discriminate. }
  assert (Hbody : forall n acc s, same_config self s ->
            Post (self_of (SelectorCV_body n acc s))).
  { intros n acc s Hs.
    destruct (same_config_fields _ _ Hs) as [Hseq _].
    rewrite (SelectorCV_body_self n acc s folds) by (rewrite Hseq; exact Hfolds).
    apply (for_each_establishes (same_config self) Post); auto.
    intros s0 [H0 _]. exact H0. }
  assert (Hsearch : Post (self_of (SelectorCV_search self))).
  { unfold SelectorCV_search. unfold bind at 1. unfold get_self.
    assert (Hloop : Post (self_of
              (for_each (range (min_n_components self) (max_n_components self + 1))
                 SelectorCV_body (neg_infinity, None) self))).
    { apply (for_each_establishes (same_config self) Post).
      - intros n acc s _ Hs. apply Hbody. exact Hs.
      - intros s0 [H0 _]. exact H0.
      - rewrite range_cons by lia. discriminate.
      - apply same_config_refl. }
    unfold bind.
    destruct (for_each (range (min_n_components self) (max_n_components self + 1))
                SelectorCV_body (neg_infinity, None) self)
      as [[[[best_score best_model] | e] s1] o1]; exact Hloop. }
  assert (Hsel : self_of (SelectorCV_select self) = self_of (SelectorCV_search self)).
  { unfold SelectorCV_select, try_except.
    destruct (SelectorCV_search self) as [[[v | e] s1] o1]; [reflexivity|].
    rewrite fallback_run. reflexivity. }
  rewrite Hsel. destruct Hsearch as [_ Hview]. exact Hview.
Qed.

End FoldView.

Lemma SelectorCV_leaves_fold_view_witness :
  exists self cv_train_idx cv_test_idx,
    Example.construct Example.book3 4 2 3 false = Ok self /\
    In (cv_train_idx, cv_test_idx) [([1; 2], [0]); ([0; 2], [1]); ([0; 1], [2])]%nat /\
    combine_sequences cv_train_idx (sequences self) =
      Ok (X (self_of (SelectorCV_select (L := Example.toy) self)),
          lengths (self_of (SelectorCV_select (L := Example.toy) self))).
Proof.
  eexists.
  destruct (SelectorCV_leaves_fold_view (L := Example.toy)
              (mkSelector Example.book3 (Example.corpus Example.book3)
                 [Example.s1; Example.s2; Example.s3]
                 (Example.s1 ++ Example.s2 ++ Example.s3) [2; 2; 2]
                 "BOOK" 4 2 3 14 false (Example.corpus Example.book3))
              [([1; 2], [0]); ([0; 2], [1]); ([0; 1], [2])]%nat)
    as [tr [te [H1 H2]]].
  - simpl. lia.
  - reflexivity.
  - exists tr, te. split; [reflexivity|]. split; assumption.
Defined.

(** ** The model and the view *)

(** X11: a model that [SelectorCV.select()] returns is the fit, with a
    state count of the range or with [n_constant], on the view that
    [self.X] and [self.lengths] hold when [select()] returns. *)
Theorem SelectorCV_model_on_left_view {L : HMMLib} (self : ModelSelector) (m : Model) :
  value_of (SelectorCV_select self) = Ok (Some m) ->
  exists n,
    (min_n_components self <= n <= max_n_components self \/ n = n_constant self) /\
    GaussianHMM_fit n (random_state self)
      (X (self_of (SelectorCV_select self)))
      (lengths (self_of (SelectorCV_select self))) = Some m.
Proof.
  intros Hv.
  destruct (SelectorCV_search self) as [[[v | e] s1] o1] eqn:Hs.
  - unfold SelectorCV_select in *.
    rewrite (try_fallback_ok _ _ _ _ _ Hs) in *.
    unfold value_of, self_of in *. simpl in *. inversion Hv. subst v. clear Hv.
    unfold SelectorCV_search in Hs.
    apply bind_ok_inv in Hs. destruct Hs as [self0 [s0 [o0 [o0' [Hg [H _]]]]]].
    inversion Hg. subst self0 s0 o0. clear Hg.
    apply bind_ok_inv in H.
    destruct H as [[best_score best_model] [s2 [o2 [o3 [Hloop [H _]]]]]].
    inversion H. subst best_model s2. clear H.
    destruct (range (min_n_components self) (max_n_components self + 1))
      as [|c rest] eqn:Hr.
    { simpl in Hloop. inversion Hloop. }
    rewrite <- Hr in Hloop.
    apply SelectorCV_loop_ok in Hloop; [|rewrite Hr; discriminate].
    destruct Hloop as [folds [d [_ [_ [Hs1 Hm]]]]].
    simpl in Hm. destruct Hm as [Hm | [n [Hin Hm]]]; [discriminate|].
    apply in_range in Hin. subst s1. simpl.
    exists n. split; [left; lia | congruence].
  - unfold SelectorCV_select in *.
    rewrite (try_fallback_raise _ _ _ _ _ Hs) in *.
    unfold value_of, self_of in *. simpl in *.
    pose proof (config_stable_SelectorCV_search self) as Hc.
    rewrite Hs in Hc. unfold self_of in Hc. simpl in Hc.
    destruct (same_config_fields _ _ Hc) as [_ [Hseed [Hnc _]]].
    exists (n_constant self). split; [right; reflexivity|].
    rewrite <- Hseed, <- Hnc. congruence.
Qed.

Lemma SelectorCV_model_on_left_view_witness :
  exists self n,
    Example.construct Example.book3 4 2 3 false = Ok self /\
    (min_n_components self <= n <= max_n_components self \/ n = n_constant self) /\
    @GaussianHMM_fit Example.toy n (random_state self)
      (X (self_of (SelectorCV_select (L := Example.toy) self)))
      (lengths (self_of (SelectorCV_select (L := Example.toy) self))) =
      Some (Example.mkToy 4 (Example.s2 ++ Example.s3) [2; 2]).
Proof.
  eexists.
  destruct (SelectorCV_model_on_left_view (L := Example.toy)
              (mkSelector Example.book3 (Example.corpus Example.book3)
                 [Example.s1; Example.s2; Example.s3]
                 (Example.s1 ++ Example.s2 ++ Example.s3) [2; 2; 2]
                 "BOOK" 4 2 3 14 false (Example.corpus Example.book3))
              (Example.mkToy 4 (Example.s2 ++ Example.s3) [2; 2]) eq_refl)
    as [n [H1 H2]].
  exists n. split; [reflexivity|]. split; assumption.
Defined.

(** ** The corpus *)

Section Corpus.

Context {L : HMMLib}.

Lemma dict_blind_ret {A : Type} (a : A) : dict_blind (ret a).
Proof. intros s ws hw. reflexivity. Qed.

Lemma dict_blind_lift {A : Type} (r : result A) : dict_blind (lift r).
Proof. intros s ws hw. reflexivity. Qed.

Lemma dict_blind_set_Xlengths (d : matrix * list Z) : dict_blind (set_Xlengths d).
Proof. intros s ws hw. reflexivity. Qed.

Lemma dict_blind_base_model (num_states : Z) : dict_blind (base_model num_states).
Proof. intros s ws hw. rewrite !base_model_run. reflexivity. Qed.

Lemma dict_blind_score_method (hmm_model : option Model) (X0 : matrix)
    (lengths0 : list Z) :
  dict_blind (score_method hmm_model X0 lengths0).
Proof.
  intros s ws hw. unfold score_method.
  destruct hmm_model as [m|]; [destruct (Model_score m X0 lengths0)|]; reflexivity.
Qed.

Lemma dict_blind_bind {A B : Type} (c : M A) (k : A -> M B) :
  dict_blind c -> (forall a, dict_blind (k a)) -> dict_blind (bind c k).
Proof.
  intros Hc Hk s ws hw. unfold bind. rewrite Hc.
  destruct (c s) as [[[a | e] s1] o1]; unfold value_of, self_of, output_of; simpl.
  - rewrite Hk. destruct (k a s1) as [[r s2] o2]. reflexivity.
  - reflexivity.
Qed.

(** Reading [self] is harmless when what is done with it is the same in
    every corpus. *)
Lemma dict_blind_get_self {B : Type} (k : ModelSelector -> M B) :
  (forall s0, dict_blind (k s0)) ->
  (forall s ws hw, k (with_dicts s ws hw) = k s) ->
  dict_blind (bind get_self k).
Proof.
  intros Hk Heq s ws hw. unfold bind, get_self.
  rewrite Heq, Hk. unfold value_of, self_of, output_of.
  destruct (k s s) as [[r s2] o2]. reflexivity.
Qed.

Lemma dict_blind_for_each {A S : Type} (xs : list A) (body : A -> S -> M S) :
  (forall x acc, dict_blind (body x acc)) ->
  forall acc, dict_blind (for_each xs body acc).
Proof.
  intros Hb. induction xs as [|x xs IH]; intros acc; simpl.
  - apply dict_blind_ret.
  - apply dict_blind_bind; auto.
Qed.

Lemma dict_blind_try {A : Type} (body handler : M A) :
  dict_blind body -> dict_blind handler -> dict_blind (try_except body handler).
Proof.
  intros Hb Hh s ws hw. unfold try_except. rewrite Hb.
  destruct (body s) as [[[a | e] s1] o1]; unfold value_of, self_of, output_of; simpl.
  - reflexivity.
  - rewrite Hh. destruct (handler s1) as [[r s2] o2]. reflexivity.
Qed.

Lemma dict_blind_fallback :
  dict_blind (self0 <- get_self ;; base_model (n_constant self0)).
Proof.
  apply dict_blind_get_self; [intros s0; apply dict_blind_base_model | reflexivity].
Qed.

Lemma dict_blind_SelectorBIC_select : dict_blind SelectorBIC_select.
Proof.
  apply dict_blind_try; [|apply dict_blind_fallback].
  unfold SelectorBIC_search.
  apply dict_blind_get_self; [|reflexivity]. intros s0.
  apply dict_blind_bind.
  - apply dict_blind_for_each. intros n acc s ws hw.
    rewrite !SelectorBIC_body_raises. reflexivity.
  - intros [best_score best_model]. apply dict_blind_ret.
Qed.

Lemma dict_blind_SelectorCV_select : dict_blind SelectorCV_select.
Proof.
  apply dict_blind_try; [|apply dict_blind_fallback].
  unfold SelectorCV_search.
  apply dict_blind_get_self; [|reflexivity]. intros s0.
  apply dict_blind_bind.
  - apply dict_blind_for_each. intros n [best_score best_model].
    unfold SelectorCV_body.
    apply dict_blind_get_self; [|reflexivity]. intros s1.
    apply dict_blind_bind; [apply dict_blind_lift|]. intros folds.
    apply dict_blind_bind.
    { apply dict_blind_for_each. intros [tr te] [logL_arr hm0].
      unfold SelectorCV_fold.
      apply dict_blind_get_self; [|reflexivity]. intros s2.
      apply dict_blind_bind; [apply dict_blind_lift|]. intros train.
      apply dict_blind_bind; [apply dict_blind_set_Xlengths|]. intros _.
      apply dict_blind_bind; [apply dict_blind_base_model|]. intros hmm_model.
      apply dict_blind_bind; [apply dict_blind_lift|]. intros [X_test test_lengths].
      apply dict_blind_bind; [apply dict_blind_score_method|]. intros logL.
      apply dict_blind_ret. }
    intros [logL_arr hmm_model].
    destruct (float_gt _ _); apply dict_blind_ret.
  - intros [best_score best_model]. apply dict_blind_ret.
Qed.

End Corpus.

(** X12: [SelectorConstant], [SelectorBIC] and [SelectorCV] read none of
    [self.words], [self.hwords] and [self.all_word_Xlengths]: with the same
    word, data and configuration, [select()] returns and prints the same
    whatever the three dicts hold, that is whatever the other words of the
    corpus are. *)
Theorem select_ignores_corpus {L : HMMLib} (strategy : Strategy)
    (self : ModelSelector) (ws : dict (list sequence)) (hw : dict (matrix * list Z)) :
  strategy <> DIC ->
  value_of (select strategy (with_dicts self ws hw)) = value_of (select strategy self) /\
  output_of (select strategy (with_dicts self ws hw)) = output_of (select strategy self) /\
  self_of (select strategy (with_dicts self ws hw)) =
    with_dicts (self_of (select strategy self)) ws hw.
Proof.
  intros Hs.
  assert (Hb : dict_blind (select strategy)).
  { destruct strategy; simpl.
    - apply dict_blind_fallback.
    - apply dict_blind_SelectorBIC_select.
    - congruence.
    - apply dict_blind_SelectorCV_select. }
  rewrite Hb. repeat split.
Qed.

Lemma select_ignores_corpus_witness :
  exists self,
    Example.construct Example.book3 4 2 3 true = Ok self /\
    value_of (select (L := Example.toy) CV
                (with_dicts self Example.three_words
                   (Example.corpus Example.three_words))) =
      value_of (select (L := Example.toy) CV self).
Proof.
  eexists. split; [reflexivity|].
  apply (select_ignores_corpus (L := Example.toy) CV). discriminate.
Defined.

(** The discriminative selector does read the corpus: the same word, data
    and configuration give [None] when the word is alone and a model when
    the corpus has other words. *)
Lemma SelectorDIC_reads_corpus :
  exists self,
    Example.construct Example.book3 1 1 1 false = Ok self /\
    value_of (select (L := Example.toy) DIC self) = Ok None /\
    value_of (select (L := Example.toy) DIC
                (with_dicts self Example.three_words
                   (Example.corpus Example.three_words))) =
      Ok (Some (Example.mkToy 1 (X self) (lengths self))).
Proof.
  eexists. repeat split; vm_compute; reflexivity.
Qed.
